(** * Todo-App backend: authentication gate, session issuance and
      ownership-scoped todo operations

    A shallow embedding of the FastAPI handlers of [backend/app]:
    [core/dependencies.py] (the authentication gate), [routes/auth.py]
    (register, login, refresh) and [routes/todos.py] (list, create,
    update, delete), together with the request schemas of
    [schemas/todo.py].

    Conventions.
    - A Python [str] is a [string]; header and cookie values are
      Latin-1 decoded, so one character is one [ascii].
    - A [datetime] is its timestamp, a [Z].
    - [request.cookies], [request.headers], the verified token payload
      and the [update_data] dictionary are finite maps ([gmap]).
    - The Prisma collections are lists of documents in storage order.
    - A raised [HTTPException] is the [Raise] branch of [result];
      handlers that write to the store return the new store next to
      their result. *)

From stdpp Require Import gmap strings list fin_maps sorting.
From Stdlib Require Import ZArith Ascii String.

Local Open Scope Z_scope.
Local Open Scope string_scope.

(** ** Python string helpers used by the handlers *)

(** [str.isspace] on the Latin-1 range: TAB..CR, FS..US, SPACE, NEL, NBSP. *)
Definition is_space (c : ascii) : bool :=
  let n := N_of_ascii c in
  ((9 <=? n) && (n <=? 13) || (28 <=? n) && (n <=? 32)
   || (n =? 133) || (n =? 160))%N.

(** [str.lower] on one Latin-1 character: A-Z and the accented capitals
    0xC0-0xDE (0xD7, the multiplication sign, apart) move up by 32. *)
Definition lower_char (c : ascii) : ascii :=
  let n := N_of_ascii c in
  if ((65 <=? n) && (n <=? 90)
      || (192 <=? n) && (n <=? 222) && negb (n =? 215))%N
  then ascii_of_N (n + 32) else c.

Fixpoint lower (s : string) : string :=
  match s with
  | EmptyString => EmptyString
  | String c s' => String (lower_char c) (lower s')
  end.

(** [str.split()] with no argument: maximal runs of non-space
    characters.  [cur] is the word being read, if one has started. *)
Fixpoint split_from (cur : option string) (s : string) : list string :=
  match s with
  | EmptyString => match cur with Some w => [w] | None => [] end
  | String c s' =>
      if is_space c
      then match cur with
           | Some w => w :: split_from None s'
           | None => split_from None s'
           end
      else split_from (Some (default "" cur +:+ String c "")) s'
  end.

Definition split (s : string) : list string := split_from None s.

(** Python truthiness of an optional string: [None] and [""] are falsy. *)
Definition truthy (o : option string) : bool :=
  match o with
  | Some s => negb (String.eqb s "")
  | None => false
  end.

(** [str.strip()] with no argument, as [lstrip] then [rstrip]. *)
Fixpoint lstrip (s : string) : string :=
  match s with
  | EmptyString => EmptyString
  | String c s' => if is_space c then lstrip s' else s
  end.

Fixpoint rstrip (s : string) : string :=
  match s with
  | EmptyString => EmptyString
  | String c s' =>
      match rstrip s' with
      | EmptyString => if is_space c then EmptyString else String c EmptyString
      | r => String c r
      end
  end.

Definition strip (s : string) : string := rstrip (lstrip s).

(** [s.split(sep)] for a one-character separator: the pieces between
    the separators, empty ones included; never the empty list. *)
Fixpoint split_on (sep : ascii) (s : string) : list string :=
  match s with
  | EmptyString => [EmptyString]
  | String c s' =>
      if Ascii.eqb c sep then EmptyString :: split_on sep s'
      else match split_on sep s' with
           | w :: ws => String c w :: ws
           | [] => [String c EmptyString]
           end
  end.

(** ** Exceptions and results *)

Record HTTPException := mkHTTPException {
  status_code : Z;
  detail : string;
  exc_headers : option (gmap string string)
}.

Inductive result (A : Type) : Type :=
| Ok (a : A)
| Raise (e : HTTPException).
Arguments Ok {A} a.
Arguments Raise {A} e.

(** Chaining of FastAPI dependencies: the first exception raised ends
    the request. *)
Definition bind {A B} (r : result A) (k : A -> result B) : result B :=
  match r with
  | Ok a => k a
  | Raise e => Raise e
  end.

Definition HTTP_400_BAD_REQUEST : Z := 400.
Definition HTTP_401_UNAUTHORIZED : Z := 401.
Definition HTTP_403_FORBIDDEN : Z := 403.
Definition HTTP_404_NOT_FOUND : Z := 404.
Definition HTTP_422_UNPROCESSABLE : Z := 422.
Definition HTTP_500_INTERNAL : Z := 500.

(** ** Documents *)

Module User.
Record t := mk {
  id : string;
  email : string;
  password : string;      (* the stored hash *)
  createdAt : Z
}.
End User.

Module Todo.
Record t := mk {
  id : string;
  title : string;
  completed : bool;
  dueDate : option Z;
  pinned : bool;
  userId : string;
  createdAt : Z
}.
End Todo.

Record Db := mkDb {
  users : list User.t;
  todos : list Todo.t
}.

(** ** The Prisma calls the handlers make *)

Module prisma.

(** [prisma.user.find_unique(where={"email": e})] *)
Definition user_find_unique_email (db : Db) (e : string) : option User.t :=
  List.find (fun u => String.eqb (User.email u) e) (users db).

(** [prisma.user.find_unique(where={"id": i})] *)
Definition user_find_unique_id (db : Db) (i : string) : option User.t :=
  List.find (fun u => String.eqb (User.id u) i) (users db).

(** [prisma.user.create(data={"email": e, "password": h})]: the store
    supplies the id and the creation time; the unique index on
    [email] refuses a second document with the same address. *)
Definition user_create (db : Db) (new_id : string) (now : Z)
    (e h : string) : option (User.t * Db) :=
  match user_find_unique_email db e with
  | Some _ => None
  | None =>
      let u := User.mk new_id e h now in
      Some (u, mkDb (users db ++ [u]) (todos db))
  end.

(** [prisma.todo.find_unique(where={"id": i})] *)
Definition todo_find_unique (db : Db) (i : string) : option Todo.t :=
  List.find (fun t => String.eqb (Todo.id t) i) (todos db).

(** [prisma.todo.find_many(where={"userId": u})] *)
Definition todo_find_many (db : Db) (u : string) : list Todo.t :=
  List.filter (fun t => String.eqb (Todo.userId t) u) (todos db).

(** [prisma.todo.create(data={...})]: id and creation time come from
    the store, every other field from [data]. *)
Definition todo_create (db : Db) (new_id : string) (now : Z)
    (title : string) (completed : bool) (dueDate : option Z)
    (pinned : bool) (userId : string) : Todo.t * Db :=
  let t := Todo.mk new_id title completed dueDate pinned userId now in
  (t, mkDb (users db) (todos db ++ [t])).

(** A value stored under a key of the [data] dictionary of an update. *)
Inductive FieldVal :=
| VStr (s : string)
| VBool (b : bool)
| VDate (d : Z).

(** The effect of [data] on one document: a key that is present
    overwrites its field, every other field is kept. *)
Definition set_fields (data : gmap string FieldVal) (t : Todo.t) : Todo.t :=
  Todo.mk
    (Todo.id t)
    (match data !! "title" with Some (VStr s) => s | _ => Todo.title t end)
    (match data !! "completed" with
     | Some (VBool b) => b | _ => Todo.completed t end)
    (match data !! "dueDate" with
     | Some (VDate d) => Some d | _ => Todo.dueDate t end)
    (match data !! "pinned" with
     | Some (VBool b) => b | _ => Todo.pinned t end)
    (Todo.userId t)
    (Todo.createdAt t).

Fixpoint replace_first (i : string) (t' : Todo.t) (l : list Todo.t)
    : list Todo.t :=
  match l with
  | [] => []
  | t :: l' =>
      if String.eqb (Todo.id t) i then t' :: l'
      else t :: replace_first i t' l'
  end.

Fixpoint remove_first (i : string) (l : list Todo.t) : list Todo.t :=
  match l with
  | [] => []
  | t :: l' =>
      if String.eqb (Todo.id t) i then l' else t :: remove_first i l'
  end.

(** [prisma.todo.update(where={"id": i}, data=data)]: the updated
    document, or [None] when no document has this id. *)
Definition todo_update (db : Db) (i : string)
    (data : gmap string FieldVal) : option Todo.t * Db :=
  match todo_find_unique db i with
  | None => (None, db)
  | Some t =>
      let t' := set_fields data t in
      (Some t', mkDb (users db) (replace_first i t' (todos db)))
  end.

(** [prisma.todo.delete(where={"id": i})] *)
Definition todo_delete (db : Db) (i : string) : option Todo.t * Db :=
  match todo_find_unique db i with
  | None => (None, db)
  | Some t => (Some t, mkDb (users db) (remove_first i (todos db)))
  end.

End prisma.

(** ** Request schemas ([schemas/todo.py], [schemas/user.py]) *)

Module TodoCreate.
Record t := mk {
  title : string;
  completed : bool;
  dueDate : option Z;
  pinned : bool
}.
End TodoCreate.

Module TodoUpdate.
Record t := mk {
  title : option string;
  completed : option bool;
  dueDate : option Z;
  pinned : option bool
}.
End TodoUpdate.

Module UserCreate.
Record t := mk { email : string; password : string }.
End UserCreate.

Module UserLogin.
Record t := mk { email : string; password : string }.
End UserLogin.

Module UserResponse.
Record t := mk { id : string; email : string; createdAt : Z }.
End UserResponse.

Module TokenResponse.
Record t := mk {
  access_token : string;
  refresh_token : string;
  token_type : string
}.
End TokenResponse.

(** A JSON value of a request body. *)
Inductive JVal :=
| JNull
| JBool (b : bool)
| JNum (n : Z)
| JStr (s : string).

(** Validation of a JSON object against the two todo schemas.  The
    coercion of a single JSON value to [str], [bool] and [datetime] is
    pydantic's and is left open; what the schemas fix is which keys
    are read, which are required, and the defaults. *)
Section Validation.

Variable as_str : JVal -> option string.
Variable as_bool : JVal -> option bool.
Variable as_datetime : JVal -> option Z.

(** [title: ... = Field(..., min_length=1, max_length=500)] *)
Definition title_ok (s : string) : bool :=
  (1 <=? String.length s)%nat && (String.length s <=? 500)%nat.

(** A required field: a missing key is a validation error. *)
Definition required_field {A} (coerce : JVal -> option A)
    (o : option JVal) : option A :=
  match o with
  | None => None
  | Some v => coerce v
  end.

(** [x: T = Field(default=d)]: a missing key yields the default. *)
Definition defaulted_field {A} (d : A) (coerce : JVal -> option A)
    (o : option JVal) : option A :=
  match o with
  | None => Some d
  | Some v => coerce v
  end.

(** [x: Optional[T] = Field(None)]: a missing key and an explicit
    [null] both yield [None]. *)
Definition optional_field {A} (coerce : JVal -> option A)
    (o : option JVal) : option (option A) :=
  match o with
  | None => Some None
  | Some JNull => Some None
  | Some v =>
      match coerce v with
      | Some a => Some (Some a)
      | None => None
      end
  end.

Definition as_title (v : JVal) : option string :=
  match as_str v with
  | Some s => if title_ok s then Some s else None
  | None => None
  end.

Definition validate_TodoCreate (body : gmap string JVal)
    : option TodoCreate.t :=
  match required_field as_title (body !! "title"),
        defaulted_field false as_bool (body !! "completed"),
        optional_field as_datetime (body !! "dueDate"),
        defaulted_field false as_bool (body !! "pinned") with
  | Some t, Some c, Some d, Some p => Some (TodoCreate.mk t c d p)
  | _, _, _, _ => None
  end.

Definition validate_TodoUpdate (body : gmap string JVal)
    : option TodoUpdate.t :=
  match optional_field as_title (body !! "title"),
        optional_field as_bool (body !! "completed"),
        optional_field as_datetime (body !! "dueDate"),
        optional_field as_bool (body !! "pinned") with
  | Some t, Some c, Some d, Some p => Some (TodoUpdate.mk t c d p)
  | _, _, _, _ => None
  end.

End Validation.

(** Validation of a JSON object against the two user schemas of
    [schemas/user.py].  [email: EmailStr] validates the address and
    hands the handler its normalised form (the domain in lower case,
    the local part as given); that is pydantic's and the
    email-validator's work and is left open as [as_email]. *)
Section UserValidation.

Variable as_str : JVal -> option string.
Variable as_email : JVal -> option string.

Definition validate_UserCreate (body : gmap string JVal)
    : option UserCreate.t :=
  match required_field as_email (body !! "email"),
        required_field as_str (body !! "password") with
  | Some e, Some p => Some (UserCreate.mk e p)
  | _, _ => None
  end.

Definition validate_UserLogin (body : gmap string JVal)
    : option UserLogin.t :=
  match required_field as_email (body !! "email"),
        required_field as_str (body !! "password") with
  | Some e, Some p => Some (UserLogin.mk e p)
  | _, _ => None
  end.

End UserValidation.

(** ** Requests, cookies and settings *)

Record Request := mkRequest {
  cookies : gmap string string;
  headers : gmap string string       (* keyed by lower-cased name *)
}.

(** [request.headers.get(name)]: header names compare without case. *)
Definition headers_get (request : Request) (name : string) : option string :=
  headers request !! lower name.

Record Cookie := mkCookie {
  key : string;
  value : string;
  httponly : bool;
  secure : bool;
  samesite : string;
  max_age : Z;
  path : string
}.

(** The [Set-Cookie] directives of a response, in the order of the
    [set_cookie] calls. *)
Definition Response := list Cookie.

Record Settings := mkSettings {
  ACCESS_TOKEN_EXPIRE_MINUTES : Z;
  REFRESH_TOKEN_EXPIRE_DAYS : Z;
  COOKIE_SECURE : bool;
  COOKIE_SAMESITE : string
}.

(** An exception that no handler catches: the server answers 500. *)
Definition internal_server_error : HTTPException :=
  mkHTTPException HTTP_500_INTERNAL "Internal Server Error" None.

(** Starlette's [Response.set_cookie] asserts
    [samesite.lower() in ["strict", "lax", "none"]] before it adds the
    directive; the [AssertionError] of any other value is caught by
    nobody. *)
Definition samesite_ok (samesite : string) : bool :=
  String.eqb (lower samesite) "strict"
  || String.eqb (lower samesite) "lax"
  || String.eqb (lower samesite) "none".

Definition set_cookie (response : Response) (cookie : Cookie)
    : result Response :=
  if samesite_ok (samesite cookie) then Ok (response ++ [cookie])%list
  else Raise internal_server_error.

(** ** The authentication gate ([core/dependencies.py]) *)

Module dependencies.

Definition WWW_Authenticate : option (gmap string string) :=
  Some {[ "WWW-Authenticate" := "Bearer" ]}.

Definition credentials_exception : HTTPException :=
  mkHTTPException HTTP_401_UNAUTHORIZED "Could not validate credentials"
    WWW_Authenticate.

(** The cookie is read first; only a missing or empty cookie lets the
    [Authorization] header speak.  [scheme, token = authorization.split()]
    raises [ValueError] unless the header splits in exactly two. *)
Definition get_token_from_cookie_or_header (request : Request)
    : result string :=
  let token := cookies request !! "access_token" in
  let extracted : result (option string) :=
    if negb (truthy token) then
      let authorization := headers_get request "Authorization" in
      if truthy authorization then
        match split (default "" authorization) with
        | [scheme; token'] =>
            if negb (String.eqb (lower scheme) "bearer")
            then Raise (mkHTTPException HTTP_401_UNAUTHORIZED
                          "Invalid authentication scheme" WWW_Authenticate)
            else Ok (Some token')
        | _ =>
            Raise (mkHTTPException HTTP_401_UNAUTHORIZED
                     "Invalid authorization header" WWW_Authenticate)
        end
      else Ok token
    else Ok token in
  bind extracted (fun token =>
    if negb (truthy token) then Raise credentials_exception
    else Ok (default "" token)).

Section Gate.

(** [verify_token(token, token_type=...)] of [utils/jwt_handler.py],
    read at the current time: the payload, or [None]. *)
Variable verify_token : Z -> string -> string -> option (gmap string string).

Definition get_current_user_id (db : Db) (now : Z) (token : string)
    : result string :=
  match verify_token now token "access" with
  | None => Raise credentials_exception
  | Some payload =>
      match payload !! "sub" with
      | None => Raise credentials_exception
      | Some user_id =>
          match prisma.user_find_unique_id db user_id with
          | None => Raise credentials_exception
          | Some _ => Ok user_id
          end
      end
  end.

(** [Depends(get_current_user_id)] as FastAPI resolves it: the token
    dependency first, then the user dependency. *)
Definition authenticate (db : Db) (now : Z) (request : Request)
    : result string :=
  bind (get_token_from_cookie_or_header request)
       (get_current_user_id db now).

(** [get_current_user]: the user document behind the id the gate
    produced, looked up once more. *)
Definition get_current_user (db : Db) (user_id : string) : option User.t :=
  prisma.user_find_unique_id db user_id.

(** [Depends(get_current_user)]: the whole chain, token to user. *)
Definition current_user (db : Db) (now : Z) (request : Request)
    : result (option User.t) :=
  bind (authenticate db now request)
       (fun user_id => Ok (get_current_user db user_id)).

End Gate.

End dependencies.

(** ** Session issuance ([routes/auth.py]) *)

Module auth.

Section Handlers.

Variable settings : Settings.
(** [utils/password.py] and [utils/jwt_handler.py]: the token
    factories read the clock, so they take the current time. *)
Variable hash_password : string -> string.
Variable verify_password : string -> string -> bool.
Variable create_access_token : Z -> gmap string string -> string.
Variable create_refresh_token : Z -> gmap string string -> string.
Variable verify_token : Z -> string -> string -> option (gmap string string).

Definition register (db : Db) (new_id : string) (now : Z)
    (user_data : UserCreate.t) : result UserResponse.t * Db :=
  match prisma.user_find_unique_email db (UserCreate.email user_data) with
  | Some _ =>
      (Raise (mkHTTPException HTTP_400_BAD_REQUEST
                "Email already registered" None), db)
  | None =>
      let hashed_password := hash_password (UserCreate.password user_data) in
      match prisma.user_create db new_id now
              (UserCreate.email user_data) hashed_password with
      | None =>
          (* an unhandled unique-constraint error of the store *)
          (Raise (mkHTTPException HTTP_500_INTERNAL
                    "Internal Server Error" None), db)
      | Some (user, db') =>
          (Ok (UserResponse.mk (User.id user) (User.email user)
                 (User.createdAt user)), db')
      end
  end.

Definition access_cookie (tok : string) : Cookie :=
  mkCookie "access_token" tok true (COOKIE_SECURE settings)
    (lower (COOKIE_SAMESITE settings))
    (ACCESS_TOKEN_EXPIRE_MINUTES settings * 60) "/".

Definition refresh_cookie (tok : string) : Cookie :=
  mkCookie "refresh_token" tok true (COOKIE_SECURE settings)
    (lower (COOKIE_SAMESITE settings))
    (REFRESH_TOKEN_EXPIRE_DAYS settings * 24 * 60 * 60) "/".

Definition login (db : Db) (now : Z) (user_data : UserLogin.t)
    : result (TokenResponse.t * Response) :=
  match prisma.user_find_unique_email db (UserLogin.email user_data) with
  | None =>
      Raise (mkHTTPException HTTP_401_UNAUTHORIZED
               "Incorrect email or password" None)
  | Some user =>
      if negb (verify_password (UserLogin.password user_data)
                 (User.password user))
      then Raise (mkHTTPException HTTP_401_UNAUTHORIZED
                    "Incorrect email or password" None)
      else
        let access_token :=
          create_access_token now {[ "sub" := User.id user ]} in
        let refresh_token :=
          create_refresh_token now {[ "sub" := User.id user ]} in
        bind (set_cookie [] (access_cookie access_token))
          (fun response =>
        bind (set_cookie response (refresh_cookie refresh_token))
          (fun response =>
        Ok (TokenResponse.mk access_token refresh_token "bearer",
            response)))
  end.

Definition refresh_token (db : Db) (now : Z) (request : Request)
    : result (TokenResponse.t * Response) :=
  match cookies request !! "refresh_token" with
  | None =>
      Raise (mkHTTPException HTTP_401_UNAUTHORIZED
               "Refresh token not provided" None)
  | Some refresh_token =>
      match verify_token now refresh_token "refresh" with
      | None =>
          Raise (mkHTTPException HTTP_401_UNAUTHORIZED
                   "Invalid or expired refresh token" None)
      | Some payload =>
          match payload !! "sub" with
          | None =>
              Raise (mkHTTPException HTTP_401_UNAUTHORIZED
                       "Invalid token payload" None)
          | Some user_id =>
              match prisma.user_find_unique_id db user_id with
              | None =>
                  Raise (mkHTTPException HTTP_401_UNAUTHORIZED
                           "User not found" None)
              | Some user =>
                  let new_access_token :=
                    create_access_token now {[ "sub" := User.id user ]} in
                  bind (set_cookie [] (access_cookie new_access_token))
                    (fun response =>
                  Ok (TokenResponse.mk new_access_token refresh_token
                        "bearer",
                      response))
              end
          end
      end
  end.

(** The register and login routes with their JSON body: the body is
    validated against the schema ([None] is the 422 answer, given
    before the handler runs) and handed over. *)
Variable as_str : JVal -> option string.
Variable as_email : JVal -> option string.

Definition post_register (db : Db) (new_id : string) (now : Z)
    (body : gmap string JVal) : option (result UserResponse.t * Db) :=
  match validate_UserCreate as_str as_email body with
  | None => None
  | Some user_data => Some (register db new_id now user_data)
  end.

Definition post_login (db : Db) (now : Z) (body : gmap string JVal)
    : option (result (TokenResponse.t * Response)) :=
  match validate_UserLogin as_str as_email body with
  | None => None
  | Some user_data => Some (login db now user_data)
  end.

End Handlers.

End auth.

(** ** Todo operations ([routes/todos.py]) *)

Module todos.

(** [sorted(todos, key=lambda x: x.createdAt, reverse=True)]: a stable
    sort, newest first; documents created at the same instant keep
    their order.  [insert_newest t l] puts [t] in front of the first
    document that is not newer than [t]. *)
Fixpoint insert_newest (t : Todo.t) (l : list Todo.t) : list Todo.t :=
  match l with
  | [] => [t]
  | t' :: l' =>
      if (Todo.createdAt t' <=? Todo.createdAt t)%Z then t :: t' :: l'
      else t' :: insert_newest t l'
  end.

Definition sorted_newest_first (l : list Todo.t) : list Todo.t :=
  foldr insert_newest [] l.

Definition get_todos (db : Db) (user_id : string) : list Todo.t :=
  let todos := prisma.todo_find_many db user_id in
  sorted_newest_first todos.

Definition create_todo (db : Db) (new_id : string) (now : Z)
    (todo_data : TodoCreate.t) (user_id : string) : Todo.t * Db :=
  prisma.todo_create db new_id now
    (TodoCreate.title todo_data)
    (TodoCreate.completed todo_data)
    (TodoCreate.dueDate todo_data)
    (TodoCreate.pinned todo_data)
    user_id.

(** The [update_data] dictionary: a key is added for each field of the
    request that is not [None]. *)
Definition update_data_of (todo_data : TodoUpdate.t)
    : gmap string prisma.FieldVal :=
  let update_data : gmap string prisma.FieldVal := ∅ in
  let update_data :=
    match TodoUpdate.title todo_data with
    | Some s => <[ "title" := prisma.VStr s ]> update_data
    | None => update_data
    end in
  let update_data :=
    match TodoUpdate.completed todo_data with
    | Some b => <[ "completed" := prisma.VBool b ]> update_data
    | None => update_data
    end in
  let update_data :=
    match TodoUpdate.dueDate todo_data with
    | Some d => <[ "dueDate" := prisma.VDate d ]> update_data
    | None => update_data
    end in
  match TodoUpdate.pinned todo_data with
  | Some b => <[ "pinned" := prisma.VBool b ]> update_data
  | None => update_data
  end.

Definition update_todo (db : Db) (todo_id : string)
    (todo_data : TodoUpdate.t) (user_id : string) : result Todo.t * Db :=
  match prisma.todo_find_unique db todo_id with
  | None =>
      (Raise (mkHTTPException HTTP_404_NOT_FOUND "Todo not found" None), db)
  | Some todo =>
      if negb (String.eqb (Todo.userId todo) user_id)
      then (Raise (mkHTTPException HTTP_403_FORBIDDEN
                     "Not authorized to update this todo" None), db)
      else
        let update_data := update_data_of todo_data in
        match prisma.todo_update db todo_id update_data with
        | (Some updated_todo, db') => (Ok updated_todo, db')
        | (None, db') =>
            (* [None] does not fit the response model *)
            (Raise (mkHTTPException HTTP_500_INTERNAL
                      "Internal Server Error" None), db')
        end
  end.

Definition delete_todo (db : Db) (todo_id : string) (user_id : string)
    : result unit * Db :=
  match prisma.todo_find_unique db todo_id with
  | None =>
      (Raise (mkHTTPException HTTP_404_NOT_FOUND "Todo not found" None), db)
  | Some todo =>
      if negb (String.eqb (Todo.userId todo) user_id)
      then (Raise (mkHTTPException HTTP_403_FORBIDDEN
                     "Not authorized to delete this todo" None), db)
      else (Ok tt, snd (prisma.todo_delete db todo_id))
  end.

(** The two endpoints with a JSON body, after the gate has produced
    [user_id]: the body is validated against the schema ([None] is the
    422 answer, given before the handler runs) and handed over. *)
Section Endpoints.

Variable as_str : JVal -> option string.
Variable as_bool : JVal -> option bool.
Variable as_datetime : JVal -> option Z.

Definition post_todos (db : Db) (new_id : string) (now : Z)
    (body : gmap string JVal) (user_id : string)
    : option (Todo.t * Db) :=
  match validate_TodoCreate as_str as_bool as_datetime body with
  | None => None
  | Some todo_data => Some (create_todo db new_id now todo_data user_id)
  end.

Definition put_todos (db : Db) (todo_id : string)
    (body : gmap string JVal) (user_id : string)
    : option (result Todo.t * Db) :=
  match validate_TodoUpdate as_str as_bool as_datetime body with
  | None => None
  | Some todo_data => Some (update_todo db todo_id todo_data user_id)
  end.

End Endpoints.

End todos.

(** ** The token codec ([utils/jwt_handler.py]) *)

Module jwt_handler.

Section Codec.

(** Signature and structure check of a token under the server's
    secret: the expiry and the string claims of a well-signed token,
    [None] for anything else. *)
Variable jwt_decode : string -> option (Z * gmap string string).

(** Modelled from the spec: [verify_token] of [utils/jwt_handler.py],
    which is not among the sources.  It decodes the token and checks
    (a) the signature, (b) that the token has not expired and (c)
    that the payload's type field equals the expected type; every
    failure gives the same invalid result, [None]. *)
Definition verify_token (now : Z) (token token_type : string)
    : option (gmap string string) :=
  match jwt_decode token with
  | None => None
  | Some (exp, payload) =>
      if (exp <=? now)%Z then None
      else if decide (payload !! "type" = Some token_type)
           then Some payload
           else None
  end.

End Codec.

End jwt_handler.

(** ** The todo routes behind the gate *)

(** Each route of [routes/todos.py] declares
    [user_id: str = Depends(get_current_user_id)]: the gate runs first
    and its exception ends the request; then the JSON body, where there
    is one, is validated ([None] is the 422 answer); then the handler
    runs. *)
Module api.

Section Wiring.

Variable verify_token : Z -> string -> string -> option (gmap string string).
Variable as_str : JVal -> option string.
Variable as_bool : JVal -> option bool.
Variable as_datetime : JVal -> option Z.

Definition get_todos (db : Db) (now : Z) (request : Request)
    : result (list Todo.t) :=
  bind (dependencies.authenticate verify_token db now request)
       (fun user_id => Ok (todos.get_todos db user_id)).

Definition create_todo (db : Db) (new_id : string) (now : Z)
    (request : Request) (body : gmap string JVal)
    : option (result Todo.t * Db) :=
  match dependencies.authenticate verify_token db now request with
  | Raise e => Some (Raise e, db)
  | Ok user_id =>
      match todos.post_todos as_str as_bool as_datetime db new_id now
              body user_id with
      | None => None
      | Some (todo, db') => Some (Ok todo, db')
      end
  end.

Definition update_todo (db : Db) (now : Z) (request : Request)
    (todo_id : string) (body : gmap string JVal)
    : option (result Todo.t * Db) :=
  match dependencies.authenticate verify_token db now request with
  | Raise e => Some (Raise e, db)
  | Ok user_id =>
      todos.put_todos as_str as_bool as_datetime db todo_id body user_id
  end.

Definition delete_todo (db : Db) (now : Z) (request : Request)
    (todo_id : string) : result unit * Db :=
  match dependencies.authenticate verify_token db now request with
  | Raise e => (Raise e, db)
  | Ok user_id => todos.delete_todo db todo_id user_id
  end.

End Wiring.

End api.

(** ** The CORS origins of [main.py] *)

Module main.

Definition default_origin : string := "http://localhost:3000".

(** [allowed_origins] as [main.py] computes it from
    [settings.FRONTEND_ORIGIN] and [settings.ALLOWED_ORIGINS].  The
    result goes through [list(set(...))], whose order is not fixed, so
    it is a set. *)
Definition allowed_origins (FRONTEND_ORIGIN : string)
    (ALLOWED_ORIGINS : option string) : gset string :=
  let allowed_origins : list string :=
    if truthy (Some FRONTEND_ORIGIN) then [FRONTEND_ORIGIN]
    else [default_origin] in
  let allowed_origins : list string :=
    if truthy ALLOWED_ORIGINS then
      let additional_origins :=
        omap (fun origin =>
                if truthy (Some (strip origin)) then Some (strip origin)
                else None)
             (split_on "," (default "" ALLOWED_ORIGINS)) in
      (allowed_origins ++ additional_origins)%list
    else allowed_origins in
  let allowed_origins : gset string :=
    list_to_set (List.filter (fun origin => truthy (Some origin))
                   allowed_origins) in
  if decide (allowed_origins = ∅) then {[ default_origin ]}
  else allowed_origins.

End main.

(** ** Names for the errors and orders the properties speak of *)

Definition not_found : HTTPException :=
  mkHTTPException HTTP_404_NOT_FOUND "Todo not found" None.

Definition forbidden (action : string) : HTTPException :=
  mkHTTPException HTTP_403_FORBIDDEN
    ("Not authorized to " +:+ action +:+ " this todo") None.



(** [a] may stand before [b] in a list that is newest first. *)
Definition not_older (a b : Todo.t) : Prop :=
  Todo.createdAt b <= Todo.createdAt a.


(** Store invariants: todo ids and user addresses are unique, as the
    primary key and the unique index make them, and every stored title
    meets the schema's length bounds. *)
Definition ids_unique (db : Db) : Prop := NoDup (map Todo.id (todos db)).

Definition emails_unique (db : Db) : Prop := NoDup (map User.email (users db)).

Definition titles_valid (db : Db) : Prop :=
  Forall (fun t => title_ok (Todo.title t) = true) (todos db).

(** What an update may never change in a todo. *)
Definition identity (t : Todo.t) : string * string * Z :=
  (Todo.id t, Todo.userId t, Todo.createdAt t).

(** The request carries a token that verifies as an access token whose
    subject is [user_id]. *)
Definition presents
    (verify_token : Z -> string -> string -> option (gmap string string))
    (now : Z) (request : Request) (user_id : string) : Prop :=
  exists token payload,
    dependencies.get_token_from_cookie_or_header request = Ok token
    /\ verify_token now token "access" = Some payload
    /\ payload !! "sub" = Some user_id.

(** No character of [s] is white space. *)
Definition no_space (s : string) : Prop :=
  Forall (fun c => is_space c = false) (list_ascii_of_string s).

(** ** Sample data: a small store, a toy codec and strict coercions *)

Module sample.

Definition alice : User.t := User.mk "u1" "alice@example.com" "hash:pw123" 10.
Definition bob : User.t := User.mk "u2" "bob@example.com" "hash:hunter2" 20.

Definition shopping : Todo.t :=
  Todo.mk "t1" "Buy milk" false (Some 500) false "u1" 100.
Definition report : Todo.t :=
  Todo.mk "t2" "Write report" false None true "u2" 200.
Definition laundry : Todo.t :=
  Todo.mk "t3" "Laundry" true None false "u1" 300.

Definition db : Db := mkDb [alice; bob] [shopping; report; laundry].

Definition settings : Settings := mkSettings 30 7 false "Lax".

Definition hash_password (p : string) : string := "hash:" +:+ p.

Definition verify_password (p h : string) : bool :=
  String.eqb (hash_password p) h.

(** A codec with two tokens, both for [alice]: ["acc"], an access
    token that expires at 1800, and ["ref"], a refresh token that
    expires at 604800. *)
Definition jwt_decode (token : string) : option (Z * gmap string string) :=
  if String.eqb token "acc"
  then Some (1800, {[ "sub" := "u1"; "type" := "access" ]})
  else if String.eqb token "ref"
  then Some (604800, {[ "sub" := "u1"; "type" := "refresh" ]})
  else None.

Definition verify_token : Z -> string -> string -> option (gmap string string) :=
  jwt_handler.verify_token jwt_decode.

Definition create_access_token (now : Z) (data : gmap string string) : string :=
  "acc".

Definition create_refresh_token (now : Z) (data : gmap string string) : string :=
  "ref".

Definition as_str (v : JVal) : option string :=
  match v with JStr s => Some s | _ => None end.

Definition as_bool (v : JVal) : option bool :=
  match v with JBool b => Some b | _ => None end.

Definition as_datetime (v : JVal) : option Z :=
  match v with JNum n => Some n | _ => None end.

(** A stand-in for [EmailStr] on plain addresses [local@domain]: the
    domain is put in lower case, the local part is kept. *)
Definition as_email (v : JVal) : option string :=
  match v with
  | JStr s =>
      match split_on "@" s with
      | [local; domain] =>
          if truthy (Some local) && truthy (Some domain)
          then Some (local +:+ "@" +:+ lower domain)
          else None
      | _ => None
      end
  | _ => None
  end.




Definition access_in_refresh_slot : Request :=
  mkRequest {[ "refresh_token" := "acc" ]} ∅.

Definition refresh_in_access_slot : Request :=
  mkRequest {[ "access_token" := "ref" ]} ∅.

Definition refresh_request : Request :=
  mkRequest {[ "refresh_token" := "ref" ]} ∅.

End sample.

(** * Properties *)

(** ** The token codec separates the two token types *)

Section CodecFacts.

Variable jwt_decode : string -> option (Z * gmap string string).

Lemma verify_token_type now token token_type payload :
  jwt_handler.verify_token jwt_decode now token token_type = Some payload ->
  exists exp, jwt_decode token = Some (exp, payload)
              /\ now < exp
              /\ payload !! "type" = Some token_type.
Proof.
  unfold jwt_handler.verify_token.
  destruct (jwt_decode token) as [[exp p]|]; [|discriminate].
  destruct (exp <=? now)%Z eqn:Hexp; [discriminate|].
  case_decide as Hty; [|discriminate].
  intros [= <-]. exists exp. repeat split; try done.
  apply Z.leb_gt in Hexp. lia.
Qed.

Lemma verify_token_other_type now now' token ty ty' payload :
  jwt_handler.verify_token jwt_decode now token ty = Some payload ->
  ty <> ty' ->
  jwt_handler.verify_token jwt_decode now' token ty' = None.
Proof.
  intros Hv Hne.
  destruct (verify_token_type _ _ _ _ Hv) as (exp & Hdec & _ & Hty).
  unfold jwt_handler.verify_token. rewrite Hdec.
  destruct (exp <=? now')%Z; [done|].
  case_decide as Hty'; [|done].
  rewrite Hty in Hty'. congruence.
Qed.

End CodecFacts.

Section Segregation.

Variable settings : Settings.
Variable create_access_token : Z -> gmap string string -> string.
Variable jwt_decode : string -> option (Z * gmap string string).

Let verify_token := jwt_handler.verify_token jwt_decode.

(** C1. Token types are segregated.  A token that verifies as an access
    token, presented in the [refresh_token] cookie of [/auth/refresh],
    is answered with the 401 error of an invalid refresh token, whatever
    the time and the store; a token that verifies as a refresh token is
    answered with the gate's 401 error when it is the token the gate
    extracts. *)
Theorem token_types_segregated :
  (forall now now' db token payload request,
      verify_token now token "access" = Some payload ->
      cookies request !! "refresh_token" = Some token ->
      auth.refresh_token settings create_access_token verify_token
        db now' request
      = Raise (mkHTTPException HTTP_401_UNAUTHORIZED
                 "Invalid or expired refresh token" None))
  /\ (forall now now' db token payload request,
         verify_token now token "refresh" = Some payload ->
         dependencies.get_token_from_cookie_or_header request = Ok token ->
         dependencies.authenticate verify_token db now' request
         = Raise dependencies.credentials_exception).
Proof.
  split; intros now now' db token payload request Hv Hreq.
  - unfold auth.refresh_token. rewrite Hreq.
    unfold verify_token in *.
    by rewrite (verify_token_other_type _ _ now' _ _ "refresh" _ Hv).
  - unfold dependencies.authenticate. rewrite Hreq. simpl.
    unfold dependencies.get_current_user_id, verify_token in *.
    by rewrite (verify_token_other_type _ _ now' _ _ "access" _ Hv).
Qed.

End Segregation.

Lemma token_types_segregated_witness :
  auth.refresh_token sample.settings sample.create_access_token
    sample.verify_token sample.db 60 sample.access_in_refresh_slot
  = Raise (mkHTTPException HTTP_401_UNAUTHORIZED
             "Invalid or expired refresh token" None)
  /\ dependencies.authenticate sample.verify_token sample.db 60
       sample.refresh_in_access_slot
     = Raise dependencies.credentials_exception.
Proof.
  destruct (token_types_segregated sample.settings sample.create_access_token
              sample.jwt_decode) as [Hacc Href].
  split.
  - apply (Hacc 0 60 sample.db "acc"
             {[ "sub" := "u1"; "type" := "access" ]}); reflexivity.
  - apply (Href 0 60 sample.db "ref"
             {[ "sub" := "u1"; "type" := "refresh" ]}); reflexivity.
Defined.

(** ** Login does not tell a missing account from a wrong password *)

Section Login.

Variable settings : Settings.
Variable verify_password : string -> string -> bool.
Variable create_access_token : Z -> gmap string string -> string.
Variable create_refresh_token : Z -> gmap string string -> string.

Let login :=
  auth.login settings verify_password create_access_token create_refresh_token.

(** C2. The error of a login for which no user has the given email is
    the error of a login whose user exists but whose password does not
    verify against the stored hash: status 401 and the message
    "Incorrect email or password", with no headers, in both. *)
Theorem login_failures_identical db1 now1 absent db2 now2 wrong user :
  prisma.user_find_unique_email db1 (UserLogin.email absent) = None ->
  prisma.user_find_unique_email db2 (UserLogin.email wrong) = Some user ->
  verify_password (UserLogin.password wrong) (User.password user) = false ->
  login db1 now1 absent = login db2 now2 wrong
  /\ login db1 now1 absent
     = Raise (mkHTTPException HTTP_401_UNAUTHORIZED
                "Incorrect email or password" None).
Proof.
  intros Habsent Hfound Hpw. unfold login, auth.login.
  by rewrite Habsent, Hfound, Hpw.
Qed.

End Login.

Lemma login_failures_identical_witness :
  auth.login sample.settings sample.verify_password
    sample.create_access_token sample.create_refresh_token
    sample.db 50 (UserLogin.mk "carol@example.com" "pw123")
  = auth.login sample.settings sample.verify_password
      sample.create_access_token sample.create_refresh_token
      sample.db 50 (UserLogin.mk "alice@example.com" "wrong")
  /\ auth.login sample.settings sample.verify_password
       sample.create_access_token sample.create_refresh_token
       sample.db 50 (UserLogin.mk "carol@example.com" "pw123")
     = Raise (mkHTTPException HTTP_401_UNAUTHORIZED
                "Incorrect email or password" None).
Proof.
  apply (login_failures_identical sample.settings sample.verify_password
           sample.create_access_token sample.create_refresh_token
           sample.db 50 (UserLogin.mk "carol@example.com" "pw123")
           sample.db 50 (UserLogin.mk "alice@example.com" "wrong")
           sample.alice); reflexivity.
Defined.

(** ** Update and delete: existence first, then ownership *)

(** C3. An update or delete of an id that no todo has fails with 404;
    of a todo whose [userId] is not the authenticated user, with 403.
    The two errors differ, and in both cases the store is returned as
    it was. *)
Theorem update_delete_guard db todo_id todo_data user_id :
  (prisma.todo_find_unique db todo_id = None ->
   todos.update_todo db todo_id todo_data user_id = (Raise not_found, db)
   /\ todos.delete_todo db todo_id user_id = (Raise not_found, db))
  /\ (forall todo,
         prisma.todo_find_unique db todo_id = Some todo ->
         Todo.userId todo <> user_id ->
         todos.update_todo db todo_id todo_data user_id
         = (Raise (forbidden "update"), db)
         /\ todos.delete_todo db todo_id user_id
            = (Raise (forbidden "delete"), db))
  /\ status_code not_found = 404
  /\ status_code (forbidden "update") = 403
  /\ status_code (forbidden "delete") = 403.
Proof.
  split; [|split; [|done]].
  - intros Hnone. unfold todos.update_todo, todos.delete_todo.
    by rewrite Hnone.
  - intros todo Hsome Hne. unfold todos.update_todo, todos.delete_todo.
    rewrite Hsome.
    destruct (String.eqb_spec (Todo.userId todo) user_id) as [Heq|_];
      [contradiction|done].
Qed.

Lemma update_delete_guard_witness :
  (todos.update_todo sample.db "t9" (TodoUpdate.mk None (Some true) None None)
     "u1" = (Raise not_found, sample.db)
   /\ todos.delete_todo sample.db "t9" "u1" = (Raise not_found, sample.db))
  /\ (todos.update_todo sample.db "t2"
        (TodoUpdate.mk None (Some true) None None) "u1"
      = (Raise (forbidden "update"), sample.db)
      /\ todos.delete_todo sample.db "t2" "u1"
         = (Raise (forbidden "delete"), sample.db)).
Proof.
  split.
  - apply (update_delete_guard sample.db "t9"
             (TodoUpdate.mk None (Some true) None None) "u1").
    reflexivity.
  - apply (update_delete_guard sample.db "t2"
             (TodoUpdate.mk None (Some true) None None) "u1"
             ) with (todo := sample.report).
    + reflexivity.
    + discriminate.
Defined.

(** ** Listing is scoped to the owner and newest first *)

Lemma insert_newest_perm t l : todos.insert_newest t l ≡ₚ t :: l.
Proof.
  induction l as [|t' l IH]; simpl; [done|].
  destruct (Todo.createdAt t' <=? Todo.createdAt t)%Z; [done|].
  rewrite IH. apply Permutation_swap.
Qed.

Lemma sorted_newest_first_perm l : todos.sorted_newest_first l ≡ₚ l.
Proof.
  induction l as [|t l IH]; simpl; [done|].
  by rewrite insert_newest_perm, IH.
Qed.

Lemma insert_newest_sorted t l :
  StronglySorted not_older l ->
  StronglySorted not_older (todos.insert_newest t l).
Proof.
  induction 1 as [|t' l Hl IH Hall]; simpl.
  - repeat constructor.
  - destruct (Todo.createdAt t' <=? Todo.createdAt t)%Z eqn:Hle.
    + apply Z.leb_le in Hle. constructor; [by constructor|].
      constructor; [done|].
      eapply Forall_impl; [exact Hall|].
      unfold not_older. intros; lia.
    + apply Z.leb_gt in Hle. constructor; [done|].
      rewrite insert_newest_perm. constructor; [|done].
      unfold not_older. lia.
Qed.

Lemma sorted_newest_first_sorted l :
  StronglySorted not_older (todos.sorted_newest_first l).
Proof.
  induction l as [|t l IH]; simpl; [constructor|].
  by apply insert_newest_sorted.
Qed.

(** C4. The list returned for a user holds exactly the stored todos
    whose [userId] is that user, each as often as it is stored, and it
    is ordered by [createdAt], newest first. *)
Theorem get_todos_scoped_newest_first db user_id :
  (forall t, t ∈ todos.get_todos db user_id
             <-> t ∈ todos db /\ Todo.userId t = user_id)
  /\ todos.get_todos db user_id
      ≡ₚ filter (fun t => Todo.userId t = user_id) (todos db)
  /\ StronglySorted not_older (todos.get_todos db user_id).
Proof.
  assert (Hfilter : prisma.todo_find_many db user_id
                    = filter (fun t => Todo.userId t = user_id) (todos db)).
  { unfold prisma.todo_find_many.
    induction (todos db) as [|t l IH]; [done|]. simpl.
    rewrite filter_cons.
    destruct (String.eqb_spec (Todo.userId t) user_id);
      case_decide; try done; by rewrite IH. }
  unfold todos.get_todos. rewrite Hfilter.
  split; [|split].
  - intros t. rewrite sorted_newest_first_perm.
    rewrite list_elem_of_filter. tauto.
  - apply sorted_newest_first_perm.
  - apply sorted_newest_first_sorted.
Qed.

(** [alice] owns two of the three stored todos; the newer comes first. *)
Example get_todos_alice :
  todos.get_todos sample.db "u1" = [sample.laundry; sample.shopping].
Proof. reflexivity. Qed.

(** ** Creation writes the authenticated user as the owner *)

Section Create.

Variable as_str : JVal -> option string.
Variable as_bool : JVal -> option bool.
Variable as_datetime : JVal -> option Z.

Lemma validate_TodoCreate_ignores_userId body (supplied : JVal) :
  validate_TodoCreate as_str as_bool as_datetime (<[ "userId" := supplied ]> body)
  = validate_TodoCreate as_str as_bool as_datetime body.
Proof.
  unfold validate_TodoCreate.
  by rewrite !lookup_insert_ne.
Qed.

(** C5. The todo a create request stores has the authenticated user as
    its [userId], whatever the request carries: the handler writes
    [user_id] for every validated body, and a [userId] key in the JSON
    body changes nothing, as the schema does not read it. *)
Theorem create_todo_owner db new_id now user_id :
  (forall todo_data,
      let '(todo, db') := todos.create_todo db new_id now todo_data user_id in
      Todo.userId todo = user_id
      /\ todos db' = (todos db ++ [todo])%list
      /\ users db' = users db)
  /\ (forall body supplied,
         todos.post_todos as_str as_bool as_datetime db new_id now
           (<[ "userId" := supplied ]> body) user_id
         = todos.post_todos as_str as_bool as_datetime db new_id now
             body user_id)
  /\ (forall body,
         match todos.post_todos as_str as_bool as_datetime db new_id now
                 body user_id with
         | Some (todo, _) => Todo.userId todo = user_id
         | None => validate_TodoCreate as_str as_bool as_datetime body = None
         end).
Proof.
  split; [|split].
  - intros todo_data. by simpl.
  - intros body supplied. unfold todos.post_todos.
    by rewrite validate_TodoCreate_ignores_userId.
  - intros body. unfold todos.post_todos.
    by destruct (validate_TodoCreate _ _ _ body).
Qed.

End Create.

(** A body that names another user as owner: the stored todo is
    [alice]'s all the same. *)
Example post_todos_foreign_userId :
  todos.post_todos sample.as_str sample.as_bool sample.as_datetime
    sample.db "t4" 400
    {[ "title" := JStr "Call Bob"; "userId" := JStr "u2" ]} "u1"
  = Some (Todo.mk "t4" "Call Bob" false None false "u1" 400,
          mkDb (users sample.db)
            (todos sample.db
               ++ [Todo.mk "t4" "Call Bob" false None false "u1" 400])%list).
Proof. reflexivity. Qed.

(** ** Refresh mints an access token and leaves the refresh token alone *)

Section Refresh.

Variable settings : Settings.
Variable create_access_token : Z -> gmap string string -> string.
Variable verify_token : Z -> string -> string -> option (gmap string string).

Let refresh := auth.refresh_token settings create_access_token verify_token.

(** When a refresh succeeds, and what it answers. *)
Lemma refresh_token_ok db now request token payload user_id user :
  cookies request !! "refresh_token" = Some token ->
  verify_token now token "refresh" = Some payload ->
  payload !! "sub" = Some user_id ->
  prisma.user_find_unique_id db user_id = Some user ->
  samesite_ok (lower (COOKIE_SAMESITE settings)) = true ->
  refresh db now request
  = Ok (TokenResponse.mk
          (create_access_token now {[ "sub" := User.id user ]}) token "bearer",
        [auth.access_cookie settings
           (create_access_token now {[ "sub" := User.id user ]})]).
Proof.
  intros Hc Hv Hs Hu Hsame. unfold refresh, auth.refresh_token.
  rewrite Hc, Hv, Hs, Hu. unfold set_cookie. simpl. by rewrite Hsame.
Qed.

(** C7. A successful refresh sets exactly one cookie, the
    [access_token] cookie carrying the access token of the answer, which
    the handler has just minted for the token's user; no [refresh_token]
    cookie is set, and the answer repeats the refresh token that the
    request presented. *)
Theorem refresh_keeps_refresh_token db now request answer set_cookies :
  refresh db now request = Ok (answer, set_cookies) ->
  cookies request !! "refresh_token"
  = Some (TokenResponse.refresh_token answer)
  /\ set_cookies
     = [auth.access_cookie settings (TokenResponse.access_token answer)]
  /\ Forall (fun c => key c = "access_token") set_cookies
  /\ (exists user,
         prisma.user_find_unique_id db (User.id user) = Some user
         /\ TokenResponse.access_token answer
            = create_access_token now {[ "sub" := User.id user ]}).
Proof.
  unfold refresh, auth.refresh_token.
  destruct (cookies request !! "refresh_token") as [token|]; [|done].
  destruct (verify_token now token "refresh") as [payload|]; [|done].
  destruct (payload !! "sub") as [user_id|]; [|done].
  destruct (prisma.user_find_unique_id db user_id) as [user|] eqn:Hu; [|done].
  unfold set_cookie. simpl.
  destruct (samesite_ok (lower (COOKIE_SAMESITE settings))); [|done].
  intros [= <- <-]. simpl. repeat split.
  - by repeat constructor.
  - exists user. split; [|done].
    unfold prisma.user_find_unique_id in *.
    pose proof (find_some _ _ Hu) as [_ Hid].
    apply String.eqb_eq in Hid. by rewrite Hid.
Qed.

End Refresh.

Lemma refresh_keeps_refresh_token_witness :
  auth.refresh_token sample.settings sample.create_access_token
    sample.verify_token sample.db 60 sample.refresh_request
  = Ok (TokenResponse.mk "acc" "ref" "bearer",
        [mkCookie "access_token" "acc" true false "lax" 1800 "/"])
  /\ cookies sample.refresh_request !! "refresh_token" = Some "ref"
  /\ Forall (fun c => key c = "access_token")
       [mkCookie "access_token" "acc" true false "lax" 1800 "/"].
Proof.
  split; [reflexivity|].
  pose proof (refresh_keeps_refresh_token sample.settings
                sample.create_access_token sample.verify_token sample.db 60
                sample.refresh_request
                (TokenResponse.mk "acc" "ref" "bearer")
                [mkCookie "access_token" "acc" true false "lax" 1800 "/"]
                eq_refl) as (Hsame & _ & Hkeys & _).
  split; [exact Hsame | exact Hkeys].
Defined.

(** ** Update changes the supplied fields and nothing else *)

Lemma set_fields_update_data todo_data todo :
  prisma.set_fields (todos.update_data_of todo_data) todo
  = Todo.mk (Todo.id todo)
      (default (Todo.title todo) (TodoUpdate.title todo_data))
      (default (Todo.completed todo) (TodoUpdate.completed todo_data))
      (match TodoUpdate.dueDate todo_data with
       | Some d => Some d
       | None => Todo.dueDate todo
       end)
      (default (Todo.pinned todo) (TodoUpdate.pinned todo_data))
      (Todo.userId todo)
      (Todo.createdAt todo).
Proof.
  destruct todo_data as [[s|] [c|] [d|] [p|]]; reflexivity.
Qed.

Lemma find_replace_first_same l i t t' :
  List.find (fun x => String.eqb (Todo.id x) i) l = Some t ->
  Todo.id t' = i ->
  List.find (fun x => String.eqb (Todo.id x) i) (prisma.replace_first i t' l)
  = Some t'.
Proof.
  intros Hfind Hid. induction l as [|x l IH]; simpl in *; [done|].
  destruct (String.eqb (Todo.id x) i) eqn:Hx; simpl.
  - by rewrite Hid, String.eqb_refl.
  - rewrite Hx. by apply IH.
Qed.

Lemma find_replace_first_other l i j t' :
  Todo.id t' = i ->
  j <> i ->
  List.find (fun x => String.eqb (Todo.id x) j) (prisma.replace_first i t' l)
  = List.find (fun x => String.eqb (Todo.id x) j) l.
Proof.
  intros Hid Hne. induction l as [|x l IH]; simpl; [done|].
  destruct (String.eqb_spec (Todo.id x) i) as [Hx|Hx]; simpl.
  - rewrite Hid, Hx.
    by destruct (String.eqb_spec i j) as [->|_].
  - by rewrite IH.
Qed.

Lemma update_todo_owned db todo_id todo_data todo :
  prisma.todo_find_unique db todo_id = Some todo ->
  todos.update_todo db todo_id todo_data (Todo.userId todo)
  = (Ok (prisma.set_fields (todos.update_data_of todo_data) todo),
     mkDb (users db)
       (prisma.replace_first todo_id
          (prisma.set_fields (todos.update_data_of todo_data) todo)
          (todos db))).
Proof.
  intros Hfind. unfold todos.update_todo, prisma.todo_update.
  by rewrite Hfind, String.eqb_refl.
Qed.

(** C8. An update of a todo by its owner succeeds, and in the updated
    todo, which is what the store then holds under this id, every field
    that the request leaves unsupplied has its previous value, a
    supplied one the supplied value; [id], [userId] and [createdAt] are
    the previous ones, and the todos with other ids and the users are
    as before. *)
Theorem update_keeps_unsupplied db todo_id todo_data user_id todo :
  prisma.todo_find_unique db todo_id = Some todo ->
  Todo.userId todo = user_id ->
  exists updated db',
    todos.update_todo db todo_id todo_data user_id = (Ok updated, db')
    /\ prisma.todo_find_unique db' todo_id = Some updated
    /\ Todo.id updated = Todo.id todo
    /\ Todo.userId updated = Todo.userId todo
    /\ Todo.createdAt updated = Todo.createdAt todo
    /\ Todo.title updated
       = default (Todo.title todo) (TodoUpdate.title todo_data)
    /\ Todo.completed updated
       = default (Todo.completed todo) (TodoUpdate.completed todo_data)
    /\ Todo.dueDate updated
       = match TodoUpdate.dueDate todo_data with
         | Some d => Some d
         | None => Todo.dueDate todo
         end
    /\ Todo.pinned updated
       = default (Todo.pinned todo) (TodoUpdate.pinned todo_data)
    /\ (forall other, other <> todo_id ->
          prisma.todo_find_unique db' other = prisma.todo_find_unique db other)
    /\ users db' = users db.
Proof.
  intros Hfind <-.
  eexists _, _. split; [by apply update_todo_owned|].
  assert (Hid : Todo.id todo = todo_id).
  { unfold prisma.todo_find_unique in Hfind.
    pose proof (find_some _ _ Hfind) as [_ Hid].
    by apply String.eqb_eq in Hid. }
  rewrite set_fields_update_data.
  split; [|split; [|split; [|split; [|split; [|split; [|split; [|split;
    [|split]]]]]]]]; try reflexivity.
  - by apply find_replace_first_same with (t := todo).
  - intros other Hne. by apply find_replace_first_other.
Qed.

Lemma update_keeps_unsupplied_witness :
  todos.update_todo sample.db "t1" (TodoUpdate.mk None (Some true) None None)
    "u1"
  = (Ok (Todo.mk "t1" "Buy milk" true (Some 500) false "u1" 100),
     mkDb [sample.alice; sample.bob]
       [Todo.mk "t1" "Buy milk" true (Some 500) false "u1" 100;
        sample.report; sample.laundry])
  /\ exists updated db',
      todos.update_todo sample.db "t1"
        (TodoUpdate.mk None (Some true) None None) "u1" = (Ok updated, db')
      /\ Todo.title updated = "Buy milk"
      /\ Todo.dueDate updated = Some 500
      /\ Todo.pinned updated = false.
Proof.
  split; [reflexivity|].
  destruct (update_keeps_unsupplied sample.db "t1"
              (TodoUpdate.mk None (Some true) None None) "u1"
              sample.shopping eq_refl eq_refl)
    as (updated & db' & Hrun & _ & _ & _ & _ & Ht & _ & Hd & Hp & _).
  exists updated, db'. repeat split; assumption.
Defined.

(** ** A due date, once set, is not cleared by an update *)

Section DueDate.

Variable as_str : JVal -> option string.
Variable as_bool : JVal -> option bool.
Variable as_datetime : JVal -> option Z.

(** An omitted [dueDate] and an explicit [null] reach the handler as
    the same [None]. *)
Lemma validate_TodoUpdate_dueDate body todo_data :
  validate_TodoUpdate as_str as_bool as_datetime body = Some todo_data ->
  body !! "dueDate" = None \/ body !! "dueDate" = Some JNull ->
  TodoUpdate.dueDate todo_data = None.
Proof.
  unfold validate_TodoUpdate. intros Hv Hbody.
  destruct (optional_field (as_title as_str) _) as [t|]; [|done].
  destruct (optional_field as_bool (body !! "completed")) as [c|]; [|done].
  destruct (optional_field as_datetime (body !! "dueDate")) as [d|] eqn:Hd;
    [|done].
  destruct (optional_field as_bool (body !! "pinned")) as [p|]; [|done].
  injection Hv as <-. simpl.
  destruct Hbody as [Hb|Hb]; rewrite Hb in Hd; simpl in Hd; congruence.
Qed.

(** C10. For a todo with a due date, an update by its owner whose body
    passes validation succeeds and leaves the todo with a due date;
    when the body omits [dueDate] or gives it as [null], the due date
    is the previous one. *)
Theorem update_never_clears_dueDate
    db todo_id body user_id todo due answer db' :
  prisma.todo_find_unique db todo_id = Some todo ->
  Todo.userId todo = user_id ->
  Todo.dueDate todo = Some due ->
  todos.put_todos as_str as_bool as_datetime db todo_id body user_id
  = Some (answer, db') ->
  exists updated,
    answer = Ok updated
    /\ prisma.todo_find_unique db' todo_id = Some updated
    /\ Todo.dueDate updated <> None
    /\ (body !! "dueDate" = None \/ body !! "dueDate" = Some JNull ->
        Todo.dueDate updated = Some due).
Proof.
  intros Hfind Howner Hdue. unfold todos.put_todos.
  destruct (validate_TodoUpdate as_str as_bool as_datetime body)
    as [todo_data|] eqn:Hv; [|done].
  subst user_id. rewrite (update_todo_owned _ _ _ _ Hfind).
  intros [= <- <-]. eexists. split; [reflexivity|].
  assert (Hid : Todo.id todo = todo_id).
  { unfold prisma.todo_find_unique in Hfind.
    pose proof (find_some _ _ Hfind) as [_ Hid].
    by apply String.eqb_eq in Hid. }
  rewrite set_fields_update_data. simpl. split; [|split].
  - by apply find_replace_first_same with (t := todo).
  - rewrite Hdue. by destruct (TodoUpdate.dueDate todo_data).
  - intros Hbody.
    by rewrite (validate_TodoUpdate_dueDate _ _ Hv Hbody).
Qed.

End DueDate.

Lemma update_never_clears_dueDate_witness :
  todos.put_todos sample.as_str sample.as_bool sample.as_datetime sample.db
    "t1" {[ "dueDate" := JNull; "pinned" := JBool true ]} "u1"
  = Some (Ok (Todo.mk "t1" "Buy milk" false (Some 500) true "u1" 100),
          mkDb [sample.alice; sample.bob]
            [Todo.mk "t1" "Buy milk" false (Some 500) true "u1" 100;
             sample.report; sample.laundry])
  /\ exists updated,
      Todo.dueDate updated <> None
      /\ Todo.dueDate updated = Some 500.
Proof.
  assert (Hrun :
    todos.put_todos sample.as_str sample.as_bool sample.as_datetime sample.db
      "t1" {[ "dueDate" := JNull; "pinned" := JBool true ]} "u1"
    = Some (Ok (Todo.mk "t1" "Buy milk" false (Some 500) true "u1" 100),
            mkDb [sample.alice; sample.bob]
              [Todo.mk "t1" "Buy milk" false (Some 500) true "u1" 100;
               sample.report; sample.laundry])) by reflexivity.
  split; [exact Hrun|].
  destruct (update_never_clears_dueDate
              sample.as_str sample.as_bool sample.as_datetime sample.db
              "t1" {[ "dueDate" := JNull; "pinned" := JBool true ]} "u1"
              sample.shopping 500 _ _ eq_refl eq_refl eq_refl Hrun)
    as (updated & _ & _ & Hsome & Hsame).
  exists updated. split; [exact Hsome|]. apply Hsame. by right.
Defined.

(** ** Registration compares addresses exactly *)


Section Register.

Variable hash_password : string -> string.
Variable as_str : JVal -> option string.
Variable as_email : JVal -> option string.

Let post_register := auth.post_register hash_password as_str as_email.



End Register.



(** With a schema that puts the domain in lower case, an address that
    differs from a stored one in the letter case of its domain is the
    stored address by the time the handler runs, and is refused. *)
Example register_domain_case_variant :
  auth.post_register sample.hash_password sample.as_str sample.as_email
    sample.db "u3" 30
    {[ "email" := JStr "alice@EXAMPLE.COM"; "password" := JStr "pw123" ]}
  = Some (Raise (mkHTTPException 400 "Email already registered" None),
          sample.db).
Proof. reflexivity. Qed.

(** The scenario of the spec: a second registration of the same address
    is refused. *)
Example register_twice :
  auth.register sample.hash_password sample.db "u3" 30
    (UserCreate.mk "alice@example.com" "other")
  = (Raise (mkHTTPException 400 "Email already registered" None), sample.db).
Proof. reflexivity. Qed.

(** ** What a failing request learns from the gate *)

(** [str.split] yields no empty word. *)
Lemma split_from_nonempty s cur :
  (forall w, cur = Some w -> w <> "") ->
  Forall (fun w => w <> "") (split_from cur s).
Proof.
  revert cur. induction s as [|c s IH]; intros cur Hcur; simpl.
  - destruct cur as [w|]; [|constructor].
    constructor; [by apply Hcur|constructor].
  - destruct (is_space c).
    + destruct cur as [w|]; [constructor; [by apply Hcur|]|];
        by apply IH.
    + apply IH. intros w [= <-].
      by destruct (default "" cur).
Qed.

Lemma split_nonempty s : Forall (fun w => w <> "") (split s).
Proof. by apply split_from_nonempty. Qed.


Section GateFailures.

Variable verify_token : Z -> string -> string -> option (gmap string string).







End GateFailures.



(** * Further properties of the handlers *)

(** ** What the gate extracts and whom it lets through *)

Lemma list_ascii_of_string_app a b :
  list_ascii_of_string (a +:+ b)
  = (list_ascii_of_string a ++ list_ascii_of_string b)%list.
Proof. induction a as [|c a IH]; simpl; [done|]. by rewrite IH. Qed.

Lemma split_from_no_space s cur :
  (forall w, cur = Some w -> no_space w) ->
  Forall no_space (split_from cur s).
Proof.
  revert cur. induction s as [|c s IH]; intros cur Hcur; simpl.
  - destruct cur as [w|]; [|constructor].
    constructor; [by apply Hcur|constructor].
  - destruct (is_space c) eqn:Hc.
    + destruct cur as [w|]; [constructor; [by apply Hcur|]|];
        by apply IH.
    + apply IH. intros w [= <-]. unfold no_space.
      rewrite list_ascii_of_string_app. apply Forall_app. split.
      * destruct cur as [w|]; [by apply Hcur|constructor].
      * simpl. by repeat constructor.
Qed.

Lemma split_no_space s : Forall no_space (split s).
Proof. by apply split_from_no_space. Qed.

Lemma truthy_Some s : truthy (Some s) = true <-> s <> "".
Proof. simpl. by destruct (String.eqb_spec s ""). Qed.

Lemma truthy_false_iff o : truthy o = false <-> o = None \/ o = Some "".
Proof.
  destruct o as [s|]; simpl; [|by split; [left|]].
  destruct (String.eqb_spec s "") as [->|Hne]; simpl.
  - by split; [right|].
  - split; [done|]. intros [?|[= ?]]; done.
Qed.

Lemma get_token_cases request token :
  dependencies.get_token_from_cookie_or_header request = Ok token
  <-> (cookies request !! "access_token" = Some token /\ token <> "")
      \/ (truthy (cookies request !! "access_token") = false
          /\ exists authorization scheme,
              headers_get request "Authorization" = Some authorization
              /\ split authorization = [scheme; token]
              /\ lower scheme = "bearer").
Proof.
  unfold dependencies.get_token_from_cookie_or_header.
  destruct (truthy (cookies request !! "access_token")) eqn:Hcookie.
  - unfold negb at 1. unfold bind. rewrite Hcookie. simpl.
    destruct (cookies request !! "access_token") as [c|]; [|done].
    apply truthy_Some in Hcookie. simpl. split.
    + intros [= <-]. by left.
    + intros [[[= <-] _]|[? _]]; done.
  - unfold negb at 1.
    assert (Hnot : ~ (cookies request !! "access_token" = Some token
                      /\ token <> "")).
    { intros [Hc Hne]. rewrite Hc in Hcookie.
      by apply truthy_Some in Hne; rewrite Hne in Hcookie. }
    destruct (headers_get request "Authorization") as [authorization|]
      eqn:Hh.
    2:{ unfold truthy at 1. unfold bind, negb. rewrite Hcookie.
        split; [done|]. by intros [?|(_ & ? & ? & ? & _)]. }
    destruct (truthy (Some authorization)) eqn:Hheader.
    2:{ unfold bind, negb. rewrite Hcookie. split; [done|].
        intros [?|(_ & a & scheme & [= <-] & Hsplit & _)]; [done|].
        apply truthy_false_iff in Hheader as [?|[= ->]]; done. }
    simpl.
    destruct (split authorization) as [|scheme [|token' [|? ?]]] eqn:Hsplit;
      simpl.
    + split; [done|].
      by intros [?|(_ & a & sch & [= <-] & Hs & _)];
        [|rewrite Hsplit in Hs].
    + split; [done|].
      by intros [?|(_ & a & sch & [= <-] & Hs & _)];
        [|rewrite Hsplit in Hs].
    + pose proof (split_nonempty authorization) as Hwords.
      rewrite Hsplit in Hwords.
      apply Forall_cons in Hwords as [_ Hwords].
      apply Forall_cons in Hwords as [Htoken _].
      destruct (String.eqb_spec (lower scheme) "bearer") as [Hb|Hb]; simpl.
      * destruct (String.eqb_spec token' "") as [|_]; [done|]. simpl.
        split.
        -- intros [= <-]. right. split; [done|].
           by exists authorization, scheme.
        -- intros [?|(_ & a & sch & [= <-] & Hs & _)]; [done|].
           rewrite Hsplit in Hs. by injection Hs as _ <-.
      * split; [done|].
        intros [?|(_ & a & sch & [= <-] & Hs & Hl)]; [done|].
        rewrite Hsplit in Hs. injection Hs as <- _. done.
    + split; [done|].
      by intros [?|(_ & a & sch & [= <-] & Hs & _)];
        [|rewrite Hsplit in Hs].
Qed.

(** The gate's extraction succeeds in exactly two ways.  A non-empty
    [access_token] cookie is returned as it is, whatever the headers
    say, a malformed [Authorization] header included.  Without such a
    cookie, an [Authorization] header of exactly two words whose first
    is "bearer" in any letter case yields its second word.  No other
    request yields a token. *)
Theorem get_token_ok request :
  (forall token,
      cookies request !! "access_token" = Some token ->
      token <> "" ->
      dependencies.get_token_from_cookie_or_header request = Ok token)
  /\ (forall authorization scheme token,
         truthy (cookies request !! "access_token") = false ->
         headers_get request "Authorization" = Some authorization ->
         split authorization = [scheme; token] ->
         lower scheme = "bearer" ->
         dependencies.get_token_from_cookie_or_header request = Ok token)
  /\ (forall token,
         dependencies.get_token_from_cookie_or_header request = Ok token ->
         cookies request !! "access_token" = Some token /\ token <> ""
         \/ truthy (cookies request !! "access_token") = false
            /\ exists authorization scheme,
                headers_get request "Authorization" = Some authorization
                /\ split authorization = [scheme; token]
                /\ lower scheme = "bearer").
Proof.
  split; [|split].
  - intros token Hcookie Hne. apply get_token_cases. by left.
  - intros authorization scheme token Hcookie Hheader Hsplit Hscheme.
    apply get_token_cases. right. split; [done|].
    by exists authorization, scheme.
  - intros token Hget. by apply get_token_cases.
Qed.

Lemma get_token_ok_witness :
  dependencies.get_token_from_cookie_or_header
    (mkRequest {[ "access_token" := "acc" ]}
       {[ "authorization" := "Basic" ]}) = Ok "acc"
  /\ dependencies.get_token_from_cookie_or_header
       (mkRequest {[ "access_token" := "" ]}
          {[ "authorization" := "BEARER ref" ]}) = Ok "ref".
Proof.
  split.
  - apply (proj1 (get_token_ok _)); [reflexivity|discriminate].
  - apply (proj1 (proj2 (get_token_ok _)) "BEARER ref" "BEARER" "ref");
      reflexivity.
Defined.

(** An extracted token is never empty, and one taken from the header
    holds no white space. *)
Theorem extracted_token_clean request token :
  dependencies.get_token_from_cookie_or_header request = Ok token ->
  token <> ""
  /\ (truthy (cookies request !! "access_token") = false -> no_space token).
Proof.
  intros Hget. apply get_token_cases in Hget
    as [[Hc Hne]|(Hcookie & authorization & scheme & _ & Hsplit & _)].
  - split; [done|]. intros Hfalse. rewrite Hc in Hfalse.
    by apply truthy_Some in Hne; rewrite Hne in Hfalse.
  - pose proof (split_nonempty authorization) as Hne.
    pose proof (split_no_space authorization) as Hns.
    rewrite Hsplit in Hne, Hns.
    apply Forall_cons in Hne as [_ Hne]. apply Forall_cons in Hne as [Hne _].
    apply Forall_cons in Hns as [_ Hns]. apply Forall_cons in Hns as [Hns _].
    done.
Qed.

Lemma extracted_token_clean_witness :
  dependencies.get_token_from_cookie_or_header
    (mkRequest ∅ {[ "authorization" := "bEaReR   acc " ]}) = Ok "acc"
  /\ "acc" <> ""
  /\ no_space "acc".
Proof.
  assert (Hrun : dependencies.get_token_from_cookie_or_header
                   (mkRequest ∅ {[ "authorization" := "bEaReR   acc " ]})
                 = Ok "acc") by reflexivity.
  split; [exact Hrun|].
  destruct (extracted_token_clean _ _ Hrun) as [Hne Hns].
  split; [exact Hne|]. apply Hns. reflexivity.
Defined.

Lemma user_find_unique_id_Some db i u :
  prisma.user_find_unique_id db i = Some u -> u ∈ users db /\ User.id u = i.
Proof.
  unfold prisma.user_find_unique_id. intros Hfind.
  pose proof (find_some _ _ Hfind) as [Hin Hid].
  split; [by apply list_elem_of_In|by apply String.eqb_eq].
Qed.

Lemma user_find_unique_id_is_Some db i :
  is_Some (prisma.user_find_unique_id db i)
  <-> exists u, u ∈ users db /\ User.id u = i.
Proof.
  split.
  - intros [u Hfind]. exists u. by apply user_find_unique_id_Some.
  - intros (u & Hin & Hid). unfold prisma.user_find_unique_id.
    destruct (List.find _ (users db)) as [v|] eqn:Hfind; [by eexists|].
    apply list_elem_of_In in Hin.
    pose proof (find_none _ _ Hfind u Hin) as Hu. simpl in Hu.
    apply String.eqb_neq in Hu. contradiction.
Qed.

Section GateSuccess.

Variable verify_token : Z -> string -> string -> option (gmap string string).

Lemma authenticate_cases db now request user_id :
  dependencies.authenticate verify_token db now request = Ok user_id
  <-> exists token payload,
      dependencies.get_token_from_cookie_or_header request = Ok token
      /\ verify_token now token "access" = Some payload
      /\ payload !! "sub" = Some user_id
      /\ is_Some (prisma.user_find_unique_id db user_id).
Proof.
  unfold dependencies.authenticate, dependencies.get_current_user_id.
  destruct (dependencies.get_token_from_cookie_or_header request)
    as [token|e]; simpl.
  2:{ split; [done|]. by intros (? & ? & ? & _). }
  split.
  - destruct (verify_token now token "access") as [payload|] eqn:Hv;
      [|done].
    destruct (payload !! "sub") as [sub|] eqn:Hsub; [|done].
    destruct (prisma.user_find_unique_id db sub) eqn:Hu; [|done].
    intros [= <-]. exists token, payload. by rewrite Hu.
  - intros (? & payload & [= <-] & -> & -> & [u ->]). done.
Qed.

(** The gate lets a request through as [user_id] exactly when the
    extracted token verifies as an access token, its payload names
    [user_id] as subject, and a user with this id is stored: a valid
    token of a user who is gone does not authenticate. *)
Theorem authenticate_ok db now request user_id :
  dependencies.authenticate verify_token db now request = Ok user_id
  <-> exists token payload,
      dependencies.get_token_from_cookie_or_header request = Ok token
      /\ verify_token now token "access" = Some payload
      /\ payload !! "sub" = Some user_id
      /\ exists user, user ∈ users db /\ User.id user = user_id.
Proof.
  rewrite authenticate_cases.
  split; intros (token & payload & Hget & Hv & Hsub & Huser);
    exists token, payload; repeat (split; [done|]);
    by apply user_find_unique_id_is_Some.
Qed.

(** Behind a successful gate, [get_current_user] always finds the
    user: the chain never hands [None] to a route, and the user it
    hands over is stored under the authenticated id. *)
Theorem current_user_found db now request answer :
  dependencies.current_user verify_token db now request = Ok answer ->
  exists user,
    answer = Some user
    /\ user ∈ users db
    /\ dependencies.authenticate verify_token db now request
       = Ok (User.id user).
Proof.
  unfold dependencies.current_user, dependencies.get_current_user.
  destruct (dependencies.authenticate verify_token db now request)
    as [user_id|e] eqn:Hauth; simpl; [|done].
  intros [= <-].
  apply authenticate_cases in Hauth
    as (_ & _ & _ & _ & _ & [user Hfind]).
  exists user. rewrite Hfind.
  apply user_find_unique_id_Some in Hfind as [Hin <-]. done.
Qed.

End GateSuccess.

Lemma current_user_found_witness :
  dependencies.current_user sample.verify_token sample.db 60
    (mkRequest {[ "access_token" := "acc" ]} ∅) = Ok (Some sample.alice)
  /\ exists user,
      Some sample.alice = Some user /\ user ∈ users sample.db.
Proof.
  assert (Hrun : dependencies.current_user sample.verify_token sample.db 60
                   (mkRequest {[ "access_token" := "acc" ]} ∅)
                 = Ok (Some sample.alice)) by reflexivity.
  split; [exact Hrun|].
  destruct (current_user_found sample.verify_token sample.db 60 _ _ Hrun)
    as (user & Hanswer & Hin & _).
  exists user. split; [exact Hanswer | exact Hin].
Defined.

(** ** Sessions: login, registration and failed refreshes *)

Lemma find_app_None {A} (f : A -> bool) l x :
  List.find f l = None ->
  List.find f (l ++ [x])%list = if f x then Some x else None.
Proof.
  induction l as [|y l IH]; simpl; [done|].
  destruct (f y); [done|]. apply IH.
Qed.

Lemma find_app_Some {A} (f : A -> bool) l l' y :
  List.find f l = Some y -> List.find f (l ++ l')%list = Some y.
Proof.
  induction l as [|z l IH]; simpl; [done|].
  destruct (f z); [done|]. apply IH.
Qed.

Section Sessions.

Variable settings : Settings.
Variable hash_password : string -> string.
Variable verify_password : string -> string -> bool.
Variable create_access_token : Z -> gmap string string -> string.
Variable create_refresh_token : Z -> gmap string string -> string.
Variable verify_token : Z -> string -> string -> option (gmap string string).
Variable as_str : JVal -> option string.
Variable as_email : JVal -> option string.

Let login :=
  auth.login settings verify_password create_access_token create_refresh_token.
Let register := auth.register hash_password.
Let refresh := auth.refresh_token settings create_access_token verify_token.
Let post_login :=
  auth.post_login settings verify_password create_access_token
    create_refresh_token as_str as_email.
Let post_register := auth.post_register hash_password as_str as_email.

Lemma register_inv db new_id now user_data answer db' :
  register db new_id now user_data = (Ok answer, db') ->
  prisma.user_find_unique_email db (UserCreate.email user_data) = None
  /\ answer = UserResponse.mk new_id (UserCreate.email user_data) now
  /\ db' = mkDb (users db
                   ++ [User.mk new_id (UserCreate.email user_data)
                         (hash_password (UserCreate.password user_data))
                         now])%list
             (todos db).
Proof.
  unfold register, auth.register, prisma.user_create.
  destruct (prisma.user_find_unique_email db (UserCreate.email user_data));
    [done|].
  by intros [= <- <-].
Qed.

(** What [login] answers once the user is found and the password
    verifies: the two cookies are set, unless [set_cookie] refuses the
    configured [samesite]. *)
Lemma login_found db now user_data user :
  prisma.user_find_unique_email db (UserLogin.email user_data) = Some user ->
  verify_password (UserLogin.password user_data) (User.password user) = true ->
  login db now user_data
  = if samesite_ok (lower (COOKIE_SAMESITE settings))
    then Ok (TokenResponse.mk
               (create_access_token now {[ "sub" := User.id user ]})
               (create_refresh_token now {[ "sub" := User.id user ]})
               "bearer",
             [auth.access_cookie settings
                (create_access_token now {[ "sub" := User.id user ]});
              auth.refresh_cookie settings
                (create_refresh_token now {[ "sub" := User.id user ]})])
    else Raise internal_server_error.
Proof.
  intros Hfind Hpw. unfold login, auth.login. rewrite Hfind, Hpw.
  unfold set_cookie. simpl.
  by destruct (samesite_ok (lower (COOKIE_SAMESITE settings))).
Qed.

Lemma validate_UserLogin_UserCreate body e p :
  validate_UserCreate as_str as_email body = Some (UserCreate.mk e p)
  <-> validate_UserLogin as_str as_email body = Some (UserLogin.mk e p).
Proof.
  unfold validate_UserCreate, validate_UserLogin.
  destruct (required_field as_email (body !! "email")),
    (required_field as_str (body !! "password")); split; try done;
    by intros [= -> ->].
Qed.

(** A login request succeeds exactly when its body passes the schema, a
    stored user has the validated address, the password verifies
    against that user's stored hash, and the configured
    [COOKIE_SAMESITE] is, in lower case, strict, lax or none.  It then
    answers with an access and a refresh token minted for the user's id
    and sets them as the [access_token] and [refresh_token] cookies, in
    this order, both http-only, on path "/", with the configured
    lifetimes in seconds.  With any other [COOKIE_SAMESITE] a login
    with the right credentials ends in the unhandled assertion of
    [set_cookie]. *)
Theorem login_ok db now body :
  (forall answer set_cookies,
      post_login db now body = Some (Ok (answer, set_cookies))
      <-> exists user_data user,
          validate_UserLogin as_str as_email body = Some user_data
          /\ prisma.user_find_unique_email db (UserLogin.email user_data)
             = Some user
          /\ verify_password (UserLogin.password user_data)
               (User.password user) = true
          /\ samesite_ok (lower (COOKIE_SAMESITE settings)) = true
          /\ answer
             = TokenResponse.mk
                 (create_access_token now {[ "sub" := User.id user ]})
                 (create_refresh_token now {[ "sub" := User.id user ]})
                 "bearer"
          /\ set_cookies
             = [mkCookie "access_token" (TokenResponse.access_token answer)
                  true (COOKIE_SECURE settings)
                  (lower (COOKIE_SAMESITE settings))
                  (ACCESS_TOKEN_EXPIRE_MINUTES settings * 60) "/";
                mkCookie "refresh_token"
                  (TokenResponse.refresh_token answer)
                  true (COOKIE_SECURE settings)
                  (lower (COOKIE_SAMESITE settings))
                  (REFRESH_TOKEN_EXPIRE_DAYS settings * 24 * 60 * 60) "/"])
  /\ (forall user_data user,
         validate_UserLogin as_str as_email body = Some user_data ->
         prisma.user_find_unique_email db (UserLogin.email user_data)
         = Some user ->
         verify_password (UserLogin.password user_data) (User.password user)
         = true ->
         samesite_ok (lower (COOKIE_SAMESITE settings)) = false ->
         post_login db now body = Some (Raise internal_server_error)).
Proof.
  unfold post_login, auth.post_login. split.
  - intros answer set_cookies.
    destruct (validate_UserLogin as_str as_email body) as [user_data|];
      [|split; [done|by intros (? & ? & ? & _)]].
    fold login. split.
    + intros [= Hlogin]. exists user_data.
      destruct (prisma.user_find_unique_email db (UserLogin.email user_data))
        as [user|] eqn:Hfind;
        [|by unfold login, auth.login in Hlogin; rewrite Hfind in Hlogin].
      destruct (verify_password (UserLogin.password user_data)
                  (User.password user)) eqn:Hpw;
        [|by unfold login, auth.login in Hlogin;
             rewrite Hfind, Hpw in Hlogin].
      rewrite (login_found _ _ _ _ Hfind Hpw) in Hlogin.
      destruct (samesite_ok (lower (COOKIE_SAMESITE settings))); [|done].
      injection Hlogin as <- <-. by exists user.
    + intros (? & user & [= <-] & Hfind & Hpw & Hsame & -> & ->).
      by rewrite (login_found _ _ _ _ Hfind Hpw), Hsame.
  - intros user_data user -> Hfind Hpw Hsame. fold login.
    by rewrite (login_found _ _ _ _ Hfind Hpw), Hsame.
Qed.

(** Register, then log in with the same body: when the hasher verifies
    the password it has just hashed and [COOKIE_SAMESITE] is one that
    [set_cookie] accepts, a login request with the body of a successful
    registration, on the store that the registration returns, succeeds
    with tokens for the new user's id. *)
Theorem register_then_login db new_id now now' body user_data answer db' :
  validate_UserCreate as_str as_email body = Some user_data ->
  verify_password (UserCreate.password user_data)
    (hash_password (UserCreate.password user_data)) = true ->
  samesite_ok (lower (COOKIE_SAMESITE settings)) = true ->
  post_register db new_id now body = Some (Ok answer, db') ->
  post_login db' now' body
  = Some (Ok (TokenResponse.mk
                (create_access_token now' {[ "sub" := new_id ]})
                (create_refresh_token now' {[ "sub" := new_id ]})
                "bearer",
              [auth.access_cookie settings
                 (create_access_token now' {[ "sub" := new_id ]});
               auth.refresh_cookie settings
                 (create_refresh_token now' {[ "sub" := new_id ]})])).
Proof.
  intros Hvalid Hpw Hsame.
  unfold post_register, auth.post_register. rewrite Hvalid.
  intros [= Hreg]. fold register in Hreg.
  apply register_inv in Hreg as (Hnone & _ & ->).
  destruct user_data as [e p].
  apply validate_UserLogin_UserCreate in Hvalid.
  unfold post_login, auth.post_login. rewrite Hvalid. fold login.
  rewrite (login_found _ _ _
             (User.mk new_id e (hash_password p) now)).
  - by rewrite Hsame.
  - unfold prisma.user_find_unique_email in *. simpl in *.
    rewrite (find_app_None _ _ _ Hnone). simpl.
    by rewrite String.eqb_refl.
  - done.
Qed.

(** A second registration of an address that has just been registered
    is refused with the 400 error, whatever the password and the id
    offered, and the store stays as the first registration left it. *)
Theorem register_twice_refused
    db new_id now user_data answer db' new_id' now' password' :
  register db new_id now user_data = (Ok answer, db') ->
  register db' new_id' now'
    (UserCreate.mk (UserCreate.email user_data) password')
  = (Raise (mkHTTPException HTTP_400_BAD_REQUEST
              "Email already registered" None), db').
Proof.
  intros Hreg. apply register_inv in Hreg as (Hnone & _ & ->).
  unfold register, auth.register, prisma.user_find_unique_email in *. simpl.
  rewrite (find_app_None _ _ _ Hnone). simpl.
  by rewrite String.eqb_refl.
Qed.

(** Registration keeps the addresses of the stored users distinct.  It
    never touches the todos, and the users stored before stay, in
    their order, with at most one user added behind them. *)
Theorem register_keeps_emails_unique db new_id now user_data :
  emails_unique db ->
  emails_unique (snd (register db new_id now user_data))
  /\ todos (snd (register db new_id now user_data)) = todos db
  /\ exists added,
      users (snd (register db new_id now user_data))
      = (users db ++ added)%list
      /\ (List.length added <= 1)%nat.
Proof.
  intros Huniq. unfold register, auth.register, prisma.user_create.
  destruct (prisma.user_find_unique_email db (UserCreate.email user_data))
    eqn:Hfind; simpl.
  - split; [done|]. split; [done|]. exists [].
    rewrite app_nil_r. split; [done|simpl; lia].
  - split; [|split; [done|eexists [_]; split; [done|simpl; lia]]].
    unfold emails_unique in *. simpl. rewrite map_app. simpl.
    apply NoDup_app. split; [done|]. split; [|apply NoDup_singleton].
    intros e Hin Hnew. apply list_elem_of_singleton in Hnew as ->.
    apply list_elem_of_fmap in Hin as (u & He & Hu).
    unfold prisma.user_find_unique_email in Hfind.
    apply list_elem_of_In in Hu.
    pose proof (find_none _ _ Hfind u Hu) as Hne. simpl in Hne.
    apply String.eqb_neq in Hne. congruence.
Qed.

(** A refresh fails in five ways.  Four are answered with status 401
    and no headers, and the message tells which check failed: no
    [refresh_token] cookie, a token that does not verify as a refresh
    token, a payload without subject, or a subject that is no stored
    user.  The fifth comes after all four checks have passed: the
    unhandled assertion of [set_cookie], when [COOKIE_SAMESITE] is not,
    in lower case, strict, lax or none. *)
Theorem refresh_failures db now request e :
  refresh db now request = Raise e ->
  status_code e = 401
  /\ exc_headers e = None
  /\ (cookies request !! "refresh_token" = None
      /\ detail e = "Refresh token not provided"
      \/ exists token,
          cookies request !! "refresh_token" = Some token
          /\ (verify_token now token "refresh" = None
              /\ detail e = "Invalid or expired refresh token"
              \/ exists payload,
                  verify_token now token "refresh" = Some payload
                  /\ (payload !! "sub" = None
                      /\ detail e = "Invalid token payload"
                      \/ exists user_id,
                          payload !! "sub" = Some user_id
                          /\ prisma.user_find_unique_id db user_id = None
                          /\ detail e = "User not found")))
  \/ e = internal_server_error
     /\ samesite_ok (lower (COOKIE_SAMESITE settings)) = false
     /\ exists token payload user_id user,
         cookies request !! "refresh_token" = Some token
         /\ verify_token now token "refresh" = Some payload
         /\ payload !! "sub" = Some user_id
         /\ prisma.user_find_unique_id db user_id = Some user.
Proof.
  unfold refresh, auth.refresh_token.
  destruct (cookies request !! "refresh_token") as [token|];
    [|intros [= <-]; left; repeat split; by left].
  destruct (verify_token now token "refresh") as [payload|] eqn:Hv;
    [|intros [= <-]; left; repeat split; right; exists token;
      split; [done|]; by left].
  destruct (payload !! "sub") as [user_id|] eqn:Hsub;
    [|intros [= <-]; left; repeat split; right; exists token;
      split; [done|]; right; exists payload; split; [done|]; by left].
  destruct (prisma.user_find_unique_id db user_id) as [user|] eqn:Hu.
  - unfold set_cookie. simpl.
    destruct (samesite_ok (lower (COOKIE_SAMESITE settings))) eqn:Hsame;
      [done|].
    intros [= <-]. right. do 2 (split; [done|]).
    by exists token, payload, user_id, user.
  - intros [= <-]. left. repeat split. right. exists token.
    split; [done|]. right. exists payload. split; [done|]. right.
    by exists user_id.
Qed.

End Sessions.

Lemma register_then_login_witness :
  auth.post_login sample.settings sample.verify_password
    sample.create_access_token sample.create_refresh_token
    sample.as_str sample.as_email
    (mkDb [sample.alice; sample.bob;
           User.mk "u3" "carol@example.com" "hash:s3cret" 30]
       (todos sample.db))
    40 {[ "email" := JStr "carol@Example.COM"; "password" := JStr "s3cret" ]}
  = Some (Ok (TokenResponse.mk "acc" "ref" "bearer",
              [auth.access_cookie sample.settings "acc";
               auth.refresh_cookie sample.settings "ref"])).
Proof.
  apply (register_then_login sample.settings sample.hash_password
           sample.verify_password sample.create_access_token
           sample.create_refresh_token sample.as_str sample.as_email
           sample.db "u3" 30 40
           {[ "email" := JStr "carol@Example.COM";
              "password" := JStr "s3cret" ]}
           (UserCreate.mk "carol@example.com" "s3cret")
           (UserResponse.mk "u3" "carol@example.com" 30));
    reflexivity.
Defined.

Lemma register_twice_refused_witness :
  auth.register sample.hash_password
    (mkDb [sample.alice; sample.bob;
           User.mk "u3" "carol@example.com" "hash:s3cret" 30]
       (todos sample.db))
    "u4" 50 (UserCreate.mk "carol@example.com" "other")
  = (Raise (mkHTTPException HTTP_400_BAD_REQUEST
              "Email already registered" None),
     mkDb [sample.alice; sample.bob;
           User.mk "u3" "carol@example.com" "hash:s3cret" 30]
       (todos sample.db)).
Proof.
  apply (register_twice_refused sample.hash_password sample.db "u3" 30
           (UserCreate.mk "carol@example.com" "s3cret")
           (UserResponse.mk "u3" "carol@example.com" 30)).
  reflexivity.
Defined.

Lemma sample_emails_unique : emails_unique sample.db.
Proof.
  unfold emails_unique. simpl.
  apply NoDup_cons. split; [|apply NoDup_singleton].
  intros Hin. apply list_elem_of_singleton in Hin. discriminate.
Defined.

Lemma register_keeps_emails_unique_witness :
  emails_unique
    (snd (auth.register sample.hash_password sample.db "u3" 30
            (UserCreate.mk "carol@example.com" "s3cret"))).
Proof.
  apply (register_keeps_emails_unique sample.hash_password sample.db "u3" 30
           (UserCreate.mk "carol@example.com" "s3cret")
           sample_emails_unique).
Defined.

Lemma refresh_failures_witness :
  auth.refresh_token sample.settings sample.create_access_token
    sample.verify_token sample.db 700000 sample.refresh_request
  = Raise (mkHTTPException HTTP_401_UNAUTHORIZED
             "Invalid or expired refresh token" None)
  /\ auth.refresh_token (mkSettings 30 7 false "sometimes")
       sample.create_access_token sample.verify_token sample.db 60
       sample.refresh_request
     = Raise internal_server_error
  /\ samesite_ok (lower "sometimes") = false.
Proof.
  assert (Hexpired :
    auth.refresh_token sample.settings sample.create_access_token
      sample.verify_token sample.db 700000 sample.refresh_request
    = Raise (mkHTTPException HTTP_401_UNAUTHORIZED
               "Invalid or expired refresh token" None)) by reflexivity.
  assert (Hcrash :
    auth.refresh_token (mkSettings 30 7 false "sometimes")
      sample.create_access_token sample.verify_token sample.db 60
      sample.refresh_request
    = Raise internal_server_error) by reflexivity.
  split; [exact Hexpired|]. split; [exact Hcrash|].
  destruct (refresh_failures (mkSettings 30 7 false "sometimes")
              sample.create_access_token sample.verify_token sample.db 60
              sample.refresh_request _ Hcrash)
    as [(Hstatus & _)|(_ & Hsame & _)]; [discriminate Hstatus|exact Hsame].
Defined.

(** ** Todos: what deletion, creation and update do to the store *)

Lemma todo_find_unique_Some db i t :
  prisma.todo_find_unique db i = Some t -> t ∈ todos db /\ Todo.id t = i.
Proof.
  unfold prisma.todo_find_unique. intros Hfind.
  pose proof (find_some _ _ Hfind) as [Hin Hid].
  split; [by apply list_elem_of_In|by apply String.eqb_eq].
Qed.

Lemma find_id_None l i :
  i ∉ map Todo.id l ->
  List.find (fun x => String.eqb (Todo.id x) i) l = None.
Proof.
  induction l as [|x l IH]; simpl; [done|].
  intros Hnotin. apply not_elem_of_cons in Hnotin as [Hne Hnotin].
  destruct (String.eqb_spec (Todo.id x) i); [congruence|by apply IH].
Qed.

Lemma remove_first_sublist i l : prisma.remove_first i l `sublist_of` l.
Proof.
  induction l as [|x l IH]; simpl; [done|].
  destruct (String.eqb (Todo.id x) i).
  - by apply sublist_cons.
  - by apply sublist_skip.
Qed.

Lemma find_remove_first_same l i :
  NoDup (map Todo.id l) ->
  List.find (fun x => String.eqb (Todo.id x) i) (prisma.remove_first i l)
  = None.
Proof.
  induction l as [|x l IH]; simpl; [done|].
  intros Hnodup. apply NoDup_cons in Hnodup as [Hnotin Hnodup].
  destruct (String.eqb_spec (Todo.id x) i) as [<-|Hne]; simpl.
  - by apply find_id_None.
  - destruct (String.eqb_spec (Todo.id x) i); [done|by apply IH].
Qed.

Lemma find_remove_first_other l i j :
  j <> i ->
  List.find (fun x => String.eqb (Todo.id x) j) (prisma.remove_first i l)
  = List.find (fun x => String.eqb (Todo.id x) j) l.
Proof.
  intros Hne. induction l as [|x l IH]; simpl; [done|].
  destruct (String.eqb_spec (Todo.id x) i) as [Hx|Hx]; simpl.
  - destruct (String.eqb_spec (Todo.id x) j); [congruence|done].
  - by rewrite IH.
Qed.

Lemma length_remove_first l i t :
  List.find (fun x => String.eqb (Todo.id x) i) l = Some t ->
  S (List.length (prisma.remove_first i l)) = List.length l.
Proof.
  induction l as [|x l IH]; simpl; [done|].
  destruct (String.eqb (Todo.id x) i); simpl; [done|].
  intros Hfind. by rewrite IH.
Qed.

Lemma delete_todo_owned db todo_id todo :
  prisma.todo_find_unique db todo_id = Some todo ->
  todos.delete_todo db todo_id (Todo.userId todo)
  = (Ok tt, mkDb (users db) (prisma.remove_first todo_id (todos db))).
Proof.
  intros Hfind. unfold todos.delete_todo, prisma.todo_delete.
  by rewrite Hfind, String.eqb_refl.
Qed.

(** A delete by the owner succeeds and takes exactly this todo out of
    the store: with unique ids the id is no longer found, one todo
    fewer is stored, every other id is found as before, the ids stay
    unique and the users are untouched. *)
Theorem delete_removes_owned db todo_id user_id todo :
  ids_unique db ->
  prisma.todo_find_unique db todo_id = Some todo ->
  Todo.userId todo = user_id ->
  exists db',
    todos.delete_todo db todo_id user_id = (Ok tt, db')
    /\ prisma.todo_find_unique db' todo_id = None
    /\ S (List.length (todos db')) = List.length (todos db)
    /\ (forall other, other <> todo_id ->
          prisma.todo_find_unique db' other = prisma.todo_find_unique db other)
    /\ ids_unique db'
    /\ users db' = users db.
Proof.
  intros Huniq Hfind <-. eexists. split; [by apply delete_todo_owned|].
  unfold prisma.todo_find_unique, ids_unique in *. simpl.
  split; [by apply find_remove_first_same|].
  split; [by apply length_remove_first with (t := todo)|].
  split; [intros other Hne; by apply find_remove_first_other|].
  split; [|done].
  eapply sublist_NoDup; [exact Huniq|].
  apply (fmap_sublist Todo.id), remove_first_sublist.
Qed.

(** Deleting the same id twice: the second delete answers 404 and
    leaves the store as the first one left it. *)
Theorem delete_twice_not_found db todo_id user_id todo db' :
  ids_unique db ->
  prisma.todo_find_unique db todo_id = Some todo ->
  todos.delete_todo db todo_id user_id = (Ok tt, db') ->
  todos.delete_todo db' todo_id user_id = (Raise not_found, db').
Proof.
  intros Huniq Hfind. unfold todos.delete_todo at 1. rewrite Hfind.
  destruct (negb (String.eqb (Todo.userId todo) user_id)); [done|].
  unfold prisma.todo_delete. rewrite Hfind. simpl. intros [= <-].
  unfold todos.delete_todo, prisma.todo_find_unique. simpl.
  by rewrite find_remove_first_same.
Qed.

Lemma sample_ids_unique : ids_unique sample.db.
Proof.
  unfold ids_unique. apply (bool_decide_unpack _). by vm_compute.
Defined.

Lemma delete_removes_owned_witness :
  exists db',
    todos.delete_todo sample.db "t1" "u1" = (Ok tt, db')
    /\ prisma.todo_find_unique db' "t1" = None.
Proof.
  destruct (delete_removes_owned sample.db "t1" "u1" sample.shopping
              sample_ids_unique eq_refl eq_refl)
    as (db' & Hrun & Hgone & _).
  exists db'. split; [exact Hrun | exact Hgone].
Defined.

Lemma delete_twice_not_found_witness :
  todos.delete_todo (mkDb [sample.alice; sample.bob]
                       [sample.report; sample.laundry]) "t1" "u1"
  = (Raise not_found,
     mkDb [sample.alice; sample.bob] [sample.report; sample.laundry]).
Proof.
  apply (delete_twice_not_found sample.db "t1" "u1" sample.shopping
           (mkDb [sample.alice; sample.bob] [sample.report; sample.laundry])
           sample_ids_unique eq_refl eq_refl).
Defined.

Lemma filter_app_singleton {A} (f : A -> bool) l x :
  List.filter f (l ++ [x])%list
  = (List.filter f l ++ if f x then [x] else [])%list.
Proof.
  induction l as [|y l IH]; simpl; [done|].
  rewrite IH. by destruct (f y).
Qed.

(** A create with an id the store does not hold yet makes the new todo
    the one found under this id and one more entry of its owner's
    listing; every other id is found as before and unique ids stay
    unique. *)
Theorem create_then_find db new_id now todo_data user_id :
  prisma.todo_find_unique db new_id = None ->
  let '(todo, db') := todos.create_todo db new_id now todo_data user_id in
  prisma.todo_find_unique db' new_id = Some todo
  /\ todo ∈ todos.get_todos db' user_id
  /\ List.length (todos.get_todos db' user_id)
     = S (List.length (todos.get_todos db user_id))
  /\ (forall other, other <> new_id ->
        prisma.todo_find_unique db' other = prisma.todo_find_unique db other)
  /\ (ids_unique db -> ids_unique db').
Proof.
  intros Hfresh. simpl.
  unfold prisma.todo_find_unique, todos.get_todos, prisma.todo_find_many,
    ids_unique in *. simpl.
  rewrite (find_app_None _ _ _ Hfresh), filter_app_singleton. simpl.
  rewrite !String.eqb_refl.
  split; [done|]. split; [|split; [|split]].
  - rewrite sorted_newest_first_perm. apply elem_of_app. right.
    apply list_elem_of_singleton. done.
  - rewrite !sorted_newest_first_perm, length_app. simpl. lia.
  - intros other Hne.
    destruct (List.find (fun t => String.eqb (Todo.id t) other) (todos db))
      as [t|] eqn:Hother.
    + by apply find_app_Some.
    + rewrite (find_app_None _ _ _ Hother). simpl.
      by destruct (String.eqb_spec new_id other).
  - intros Huniq. rewrite map_app. simpl. apply NoDup_app.
    split; [done|]. split; [|apply NoDup_singleton].
    intros i Hin Hnew. apply list_elem_of_singleton in Hnew as ->.
    apply list_elem_of_fmap in Hin as (t & Hid & Ht).
    apply list_elem_of_In in Ht.
    pose proof (find_none _ _ Hfresh t Ht) as Hne. simpl in Hne.
    apply String.eqb_neq in Hne. congruence.
Qed.

Lemma create_then_find_witness :
  prisma.todo_find_unique
    (snd (todos.create_todo sample.db "t4" 400
            (TodoCreate.mk "Call Bob" false None false) "u1")) "t4"
  = Some (Todo.mk "t4" "Call Bob" false None false "u1" 400).
Proof.
  exact (proj1 (create_then_find sample.db "t4" 400
                  (TodoCreate.mk "Call Bob" false None false) "u1" eq_refl)).
Defined.

Lemma map_identity_replace_first i t' l t :
  List.find (fun x => String.eqb (Todo.id x) i) l = Some t ->
  identity t' = identity t ->
  map identity (prisma.replace_first i t' l) = map identity l.
Proof.
  intros Hfind Hsame. induction l as [|x l IH]; simpl in *; [done|].
  destruct (String.eqb (Todo.id x) i); simpl.
  - injection Hfind as ->. by rewrite Hsame.
  - by rewrite IH.
Qed.

Lemma cons_eq_inv {A} (x y : A) l k : x :: l = y :: k -> x = y /\ l = k.
Proof. by intros [= -> ->]. Qed.

Lemma insert_newest_identity t t' l l' :
  identity t = identity t' ->
  map identity l = map identity l' ->
  map identity (todos.insert_newest t l)
  = map identity (todos.insert_newest t' l').
Proof.
  intros Ht. revert l'. induction l as [|x l IH]; intros [|x' l'] Hl;
    simpl in *; try done.
  - by rewrite Ht.
  - apply cons_eq_inv in Hl as [Hx Hl].
    assert (Todo.createdAt x = Todo.createdAt x'
            /\ Todo.createdAt t = Todo.createdAt t') as [-> ->].
    { unfold identity in *. split; congruence. }
    destruct (Todo.createdAt x' <=? Todo.createdAt t')%Z; simpl.
    + by rewrite Ht, Hx, Hl.
    + rewrite Hx. f_equal. by apply IH.
Qed.

Lemma sorted_newest_first_identity l l' :
  map identity l = map identity l' ->
  map identity (todos.sorted_newest_first l)
  = map identity (todos.sorted_newest_first l').
Proof.
  revert l'. induction l as [|x l IH]; intros [|x' l'] Hl;
    simpl in *; try done.
  apply cons_eq_inv in Hl as [Hx Hl].
  apply insert_newest_identity; [done|by apply IH].
Qed.

Lemma filter_userId_identity u l l' :
  map identity l = map identity l' ->
  map identity (List.filter (fun t => String.eqb (Todo.userId t) u) l)
  = map identity (List.filter (fun t => String.eqb (Todo.userId t) u) l').
Proof.
  revert l'. induction l as [|x l IH]; intros [|x' l'] Hl;
    simpl in *; try done.
  apply cons_eq_inv in Hl as [Hx Hl].
  assert (Todo.userId x = Todo.userId x') as ->.
  { unfold identity in *. congruence. }
  destruct (String.eqb (Todo.userId x') u); simpl; [rewrite Hx; f_equal|];
    by apply IH.
Qed.

(** Whatever an update request asks for and however it ends, the ids,
    owners and creation times of the stored todos are as before, in the
    same storage order; so everybody's listing shows the same todos in
    the same order as before, unique ids stay unique, and the users are
    untouched. *)
Theorem update_keeps_identities db todo_id todo_data user_id :
  let db' := snd (todos.update_todo db todo_id todo_data user_id) in
  map identity (todos db') = map identity (todos db)
  /\ (forall anyone,
        map identity (todos.get_todos db' anyone)
        = map identity (todos.get_todos db anyone))
  /\ (ids_unique db -> ids_unique db')
  /\ users db' = users db.
Proof.
  simpl.
  assert (Hmap : map identity
                   (todos (snd (todos.update_todo db todo_id todo_data
                                  user_id)))
                 = map identity (todos db)).
  { unfold todos.update_todo, prisma.todo_update.
    destruct (prisma.todo_find_unique db todo_id) as [todo|] eqn:Hfind;
      [|done].
    destruct (negb (String.eqb (Todo.userId todo) user_id)); [done|].
    simpl. by apply map_identity_replace_first with (t := todo). }
  split; [done|]. split; [|split].
  - intros anyone. unfold todos.get_todos, prisma.todo_find_many.
    by apply sorted_newest_first_identity, filter_userId_identity.
  - unfold ids_unique.
    assert (Hids : forall l : list Todo.t,
               map Todo.id l = map (fun p => p.1.1) (map identity l)).
    { intros l. rewrite map_map. done. }
    by rewrite !Hids, Hmap.
  - unfold todos.update_todo, prisma.todo_update.
    destruct (prisma.todo_find_unique db todo_id) as [todo|]; [|done].
    by destruct (negb (String.eqb (Todo.userId todo) user_id)).
Qed.

(** ** Listings: ties and tenants *)

Lemma insert_newest_same_instant c t l :
  List.filter (fun x => Todo.createdAt x =? c)%Z (todos.insert_newest t l)
  = List.filter (fun x => Todo.createdAt x =? c)%Z (t :: l).
Proof.
  induction l as [|x l IH]; [done|].
  cbn [todos.insert_newest].
  destruct (Todo.createdAt x <=? Todo.createdAt t)%Z eqn:Hle; [done|].
  apply Z.leb_gt in Hle.
  cbn [List.filter] in *. rewrite IH.
  destruct (Z.eqb_spec (Todo.createdAt t) c) as [Ht|Ht];
    destruct (Z.eqb_spec (Todo.createdAt x) c) as [Hx|Hx]; try done.
  lia.
Qed.

(** The sort of a listing is stable: the todos created at one and the
    same instant appear in the order in which the store returned
    them. *)
Theorem get_todos_stable db user_id instant :
  List.filter (fun t => Todo.createdAt t =? instant)%Z
    (todos.get_todos db user_id)
  = List.filter (fun t => Todo.createdAt t =? instant)%Z
      (prisma.todo_find_many db user_id).
Proof.
  unfold todos.get_todos.
  induction (prisma.todo_find_many db user_id) as [|t l IH]; [done|].
  cbn [todos.sorted_newest_first foldr].
  rewrite insert_newest_same_instant.
  cbn [List.filter]. fold (todos.sorted_newest_first l). by rewrite IH.
Qed.

Lemma filter_replace_first_other i t' l t other :
  List.find (fun x => String.eqb (Todo.id x) i) l = Some t ->
  Todo.userId t <> other ->
  Todo.userId t' <> other ->
  List.filter (fun x => String.eqb (Todo.userId x) other)
    (prisma.replace_first i t' l)
  = List.filter (fun x => String.eqb (Todo.userId x) other) l.
Proof.
  intros Hfind Ht Ht'. induction l as [|x l IH]; simpl in *; [done|].
  destruct (String.eqb (Todo.id x) i); simpl.
  - injection Hfind as ->.
    destruct (String.eqb_spec (Todo.userId t') other); [done|].
    by destruct (String.eqb_spec (Todo.userId t) other).
  - by rewrite IH.
Qed.

Lemma filter_remove_first_other i l t other :
  List.find (fun x => String.eqb (Todo.id x) i) l = Some t ->
  Todo.userId t <> other ->
  List.filter (fun x => String.eqb (Todo.userId x) other)
    (prisma.remove_first i l)
  = List.filter (fun x => String.eqb (Todo.userId x) other) l.
Proof.
  intros Hfind Ht. induction l as [|x l IH]; simpl in *; [done|].
  destruct (String.eqb (Todo.id x) i); simpl.
  - injection Hfind as ->.
    by destruct (String.eqb_spec (Todo.userId t) other).
  - by rewrite IH.
Qed.

(** Tenants are isolated: whatever one user creates, updates or
    deletes, and whether the request succeeds or fails, the listing of
    every other user is what it was. *)
Theorem other_listings_untouched
    db new_id now todo_id create_data update_data user_id other :
  other <> user_id ->
  todos.get_todos
    (snd (todos.create_todo db new_id now create_data user_id)) other
  = todos.get_todos db other
  /\ todos.get_todos
       (snd (todos.update_todo db todo_id update_data user_id)) other
     = todos.get_todos db other
  /\ todos.get_todos (snd (todos.delete_todo db todo_id user_id)) other
     = todos.get_todos db other.
Proof.
  intros Hother. unfold todos.get_todos, prisma.todo_find_many.
  split; [|split].
  - simpl. rewrite filter_app_singleton. simpl.
    destruct (String.eqb_spec user_id other); [congruence|].
    by rewrite app_nil_r.
  - unfold todos.update_todo, prisma.todo_update.
    destruct (prisma.todo_find_unique db todo_id) as [todo|] eqn:Hfind;
      [|done].
    destruct (String.eqb_spec (Todo.userId todo) user_id) as [Hown|Hown];
      [|done].
    simpl. erewrite filter_replace_first_other; [done|exact Hfind|..];
      simpl; congruence.
  - unfold todos.delete_todo, prisma.todo_delete.
    destruct (prisma.todo_find_unique db todo_id) as [todo|] eqn:Hfind;
      [|done].
    destruct (String.eqb_spec (Todo.userId todo) user_id) as [Hown|Hown];
      [|done].
    simpl. erewrite filter_remove_first_other; [done|exact Hfind|].
    congruence.
Qed.

Lemma other_listings_untouched_witness :
  todos.get_todos (snd (todos.delete_todo sample.db "t1" "u1")) "u2"
  = todos.get_todos sample.db "u2".
Proof.
  assert (Hother : "u2" <> "u1") by discriminate.
  exact (proj2 (proj2 (other_listings_untouched sample.db "t4" 400 "t1"
                         (TodoCreate.mk "Call Bob" false None false)
                         (TodoUpdate.mk None None None None)
                         "u1" "u2" Hother))).
Defined.

(** ** Updates that change nothing, and updates applied twice *)

Lemma replace_first_same i l t :
  List.find (fun x => String.eqb (Todo.id x) i) l = Some t ->
  prisma.replace_first i t l = l.
Proof.
  induction l as [|x l IH]; simpl; [done|].
  destruct (String.eqb (Todo.id x) i).
  - by intros [= ->].
  - intros Hfind. by rewrite IH.
Qed.

Lemma replace_first_twice i t' l :
  Todo.id t' = i ->
  prisma.replace_first i t' (prisma.replace_first i t' l)
  = prisma.replace_first i t' l.
Proof.
  intros Hid. induction l as [|x l IH]; simpl; [done|].
  destruct (String.eqb (Todo.id x) i) eqn:Hx; simpl.
  - by rewrite Hid, String.eqb_refl.
  - by rewrite Hx, IH.
Qed.

Lemma set_fields_twice data t :
  prisma.set_fields data (prisma.set_fields data t) = prisma.set_fields data t.
Proof.
  unfold prisma.set_fields. simpl.
  destruct (data !! "title") as [[]|], (data !! "completed") as [[]|],
    (data !! "dueDate") as [[]|], (data !! "pinned") as [[]|]; reflexivity.
Qed.

(** An update that supplies no field at all answers with the stored
    todo and returns the very store it was given. *)
Theorem update_nothing db todo_id user_id todo :
  prisma.todo_find_unique db todo_id = Some todo ->
  Todo.userId todo = user_id ->
  todos.update_todo db todo_id (TodoUpdate.mk None None None None) user_id
  = (Ok todo, db).
Proof.
  intros Hfind <-. rewrite (update_todo_owned _ _ _ _ Hfind).
  rewrite set_fields_update_data. simpl.
  assert (Hsame : Todo.mk (Todo.id todo) (Todo.title todo)
                    (Todo.completed todo) (Todo.dueDate todo)
                    (Todo.pinned todo) (Todo.userId todo)
                    (Todo.createdAt todo) = todo) by by destruct todo.
  rewrite Hsame. unfold prisma.todo_find_unique in Hfind.
  rewrite (replace_first_same _ _ _ Hfind). by destruct db.
Qed.

Lemma update_nothing_witness :
  todos.update_todo sample.db "t3" (TodoUpdate.mk None None None None) "u1"
  = (Ok sample.laundry, sample.db).
Proof.
  apply (update_nothing sample.db "t3" "u1" sample.laundry); reflexivity.
Defined.

(** Updates are idempotent: sending the same update a second time
    answers with the same todo and leaves the store as the first update
    left it. *)
Theorem update_twice db todo_id todo_data user_id updated db' :
  todos.update_todo db todo_id todo_data user_id = (Ok updated, db') ->
  todos.update_todo db' todo_id todo_data user_id = (Ok updated, db').
Proof.
  unfold todos.update_todo at 1.
  destruct (prisma.todo_find_unique db todo_id) as [todo|] eqn:Hfind;
    [|done].
  destruct (String.eqb_spec (Todo.userId todo) user_id) as [<-|]; [|done].
  unfold prisma.todo_update. rewrite Hfind. simpl. intros [= <- <-].
  pose proof (todo_find_unique_Some _ _ _ Hfind) as [_ Hid].
  set (updated := prisma.set_fields (todos.update_data_of todo_data) todo).
  assert (Hfind' :
    prisma.todo_find_unique
      (mkDb (users db) (prisma.replace_first todo_id updated (todos db)))
      todo_id = Some updated).
  { unfold prisma.todo_find_unique in *. simpl.
    by apply find_replace_first_same with (t := todo). }
  assert (Howner : Todo.userId updated = Todo.userId todo) by done.
  rewrite <- Howner. rewrite (update_todo_owned _ _ _ _ Hfind'). simpl.
  unfold updated. by rewrite set_fields_twice, replace_first_twice.
Qed.

Lemma update_twice_witness :
  todos.update_todo
    (mkDb [sample.alice; sample.bob]
       [Todo.mk "t1" "Buy milk" true (Some 500) false "u1" 100;
        sample.report; sample.laundry])
    "t1" (TodoUpdate.mk None (Some true) None None) "u1"
  = (Ok (Todo.mk "t1" "Buy milk" true (Some 500) false "u1" 100),
     mkDb [sample.alice; sample.bob]
       [Todo.mk "t1" "Buy milk" true (Some 500) false "u1" 100;
        sample.report; sample.laundry]).
Proof.
  apply (update_twice sample.db "t1"
           (TodoUpdate.mk None (Some true) None None) "u1").
  reflexivity.
Defined.

(** ** Validation of request bodies *)

Section Bodies.

Variable as_str : JVal -> option string.
Variable as_bool : JVal -> option bool.
Variable as_datetime : JVal -> option Z.

Let post_todos := todos.post_todos as_str as_bool as_datetime.
Let put_todos := todos.put_todos as_str as_bool as_datetime.

Lemma as_title_ok v s : as_title as_str v = Some s -> title_ok s = true.
Proof.
  unfold as_title. destruct (as_str v) as [s'|]; [|done].
  destruct (title_ok s') eqn:Hok; [|done]. by intros [= <-].
Qed.

Lemma optional_title_ok o s :
  optional_field (as_title as_str) o = Some (Some s) -> title_ok s = true.
Proof.
  unfold optional_field. destruct o as [v|]; [|done].
  destruct (as_title as_str v) as [s'|] eqn:Ht; [|by destruct v].
  apply as_title_ok in Ht. by destruct v; intros [= <-].
Qed.

Lemma validate_TodoCreate_title_ok body todo_data :
  validate_TodoCreate as_str as_bool as_datetime body = Some todo_data ->
  title_ok (TodoCreate.title todo_data) = true.
Proof.
  unfold validate_TodoCreate.
  destruct (body !! "title") as [v|]; [|done]. simpl.
  destruct (as_title as_str v) as [t|] eqn:Ht; [|done].
  destruct (defaulted_field false as_bool (body !! "completed")); [|done].
  destruct (optional_field as_datetime (body !! "dueDate")); [|done].
  destruct (defaulted_field false as_bool (body !! "pinned")); [|done].
  intros [= <-]. simpl. by apply as_title_ok in Ht.
Qed.

(** What the create schema demands and what it fills in: a body
    without [title] is refused; an accepted body yields a title of 1 to
    500 characters, [completed] and [pinned] as [false] where the body
    has no such key, and no due date where the body omits [dueDate] or
    gives [null]. *)
Theorem validate_TodoCreate_shape body :
  (body !! "title" = None ->
   validate_TodoCreate as_str as_bool as_datetime body = None)
  /\ (forall todo_data,
        validate_TodoCreate as_str as_bool as_datetime body = Some todo_data ->
        (1 <= String.length (TodoCreate.title todo_data) <= 500)%nat
        /\ (body !! "completed" = None ->
            TodoCreate.completed todo_data = false)
        /\ (body !! "pinned" = None -> TodoCreate.pinned todo_data = false)
        /\ (body !! "dueDate" = None \/ body !! "dueDate" = Some JNull ->
            TodoCreate.dueDate todo_data = None)).
Proof.
  unfold validate_TodoCreate. split.
  - by intros ->.
  - intros todo_data.
    destruct (required_field (as_title as_str) (body !! "title"))
      as [t|] eqn:Ht; [|done].
    destruct (defaulted_field false as_bool (body !! "completed"))
      as [c|] eqn:Hc; [|done].
    destruct (optional_field as_datetime (body !! "dueDate"))
      as [d|] eqn:Hd; [|done].
    destruct (defaulted_field false as_bool (body !! "pinned"))
      as [p|] eqn:Hp; [|done].
    intros [= <-]. simpl. split; [|split; [|split]].
    + unfold required_field in Ht.
      destruct (body !! "title") as [v|]; [|done].
      apply as_title_ok in Ht. unfold title_ok in Ht.
      apply andb_true_iff in Ht as [Hlo Hhi].
      apply Nat.leb_le in Hlo, Hhi. done.
    + intros Hnone. rewrite Hnone in Hc. by injection Hc.
    + intros Hnone. rewrite Hnone in Hp. by injection Hp.
    + intros [Hnone|Hnull]; [rewrite Hnone in Hd|rewrite Hnull in Hd];
        by injection Hd.
Qed.

(** The title bounds are an invariant of the store: if every stored
    title has 1 to 500 characters, this is still so after any create
    and any update that was let through validation, whoever sent it and
    however the handler answered. *)
Theorem titles_stay_valid db :
  titles_valid db ->
  (forall new_id now body user_id todo db',
      post_todos db new_id now body user_id = Some (todo, db') ->
      titles_valid db')
  /\ (forall todo_id body user_id answer db',
         put_todos db todo_id body user_id = Some (answer, db') ->
         titles_valid db').
Proof.
  intros Hvalid. unfold titles_valid in *. split.
  - intros new_id now body user_id todo db'.
    unfold post_todos, todos.post_todos.
    destruct (validate_TodoCreate as_str as_bool as_datetime body)
      as [todo_data|] eqn:Hv; [|done].
    intros [= <- <-]. simpl. apply Forall_app. split; [done|].
    constructor; [|constructor]. simpl.
    by apply validate_TodoCreate_title_ok in Hv.
  - intros todo_id body user_id answer db'.
    unfold put_todos, todos.put_todos.
    destruct (validate_TodoUpdate as_str as_bool as_datetime body)
      as [todo_data|] eqn:Hv; [|done].
    unfold todos.update_todo, prisma.todo_update.
    destruct (prisma.todo_find_unique db todo_id) as [todo|] eqn:Hfind;
      [|by intros [= <- <-]].
    destruct (negb (String.eqb (Todo.userId todo) user_id));
      [by intros [= <- <-]|].
    intros [= <- <-]. simpl.
    assert (Hnew : title_ok
                     (Todo.title
                        (prisma.set_fields (todos.update_data_of todo_data)
                           todo)) = true).
    { rewrite set_fields_update_data. simpl.
      destruct (TodoUpdate.title todo_data) as [s|] eqn:Hs; simpl.
      - unfold validate_TodoUpdate in Hv.
        destruct (optional_field (as_title as_str) (body !! "title"))
          as [t|] eqn:Ht; [|done].
        destruct (optional_field as_bool (body !! "completed")); [|done].
        destruct (optional_field as_datetime (body !! "dueDate")); [|done].
        destruct (optional_field as_bool (body !! "pinned")); [|done].
        injection Hv as <-. simpl in Hs. subst t.
        by apply optional_title_ok in Ht.
      - apply todo_find_unique_Some in Hfind as [Hin _].
        by apply (proj1 (Forall_forall _ _) Hvalid). }
    revert Hnew.
    generalize (prisma.set_fields (todos.update_data_of todo_data) todo).
    intros t' Hnew. clear Hfind.
    induction Hvalid as [|x l Hx Hl IH]; simpl; [constructor|].
    destruct (String.eqb (Todo.id x) todo_id); by constructor.
Qed.

End Bodies.

Lemma sample_titles_valid : titles_valid sample.db.
Proof.
  unfold titles_valid. apply (bool_decide_unpack _). by vm_compute.
Defined.

Lemma titles_stay_valid_witness :
  titles_valid
    (mkDb (users sample.db)
       (todos sample.db
          ++ [Todo.mk "t4" "Call Bob" false None false "u1" 400])%list).
Proof.
  apply (proj1 (titles_stay_valid sample.as_str sample.as_bool
                  sample.as_datetime sample.db sample_titles_valid)
           "t4" 400 {[ "title" := JStr "Call Bob" ]} "u1"
           (Todo.mk "t4" "Call Bob" false None false "u1" 400)).
  reflexivity.
Defined.

(** ** Through the gate: who can change the store *)

Section EndToEnd.

Variable verify_token : Z -> string -> string -> option (gmap string string).
Variable as_str : JVal -> option string.
Variable as_bool : JVal -> option bool.
Variable as_datetime : JVal -> option Z.

Lemma authenticate_presents db now request user_id :
  dependencies.authenticate verify_token db now request = Ok user_id ->
  presents verify_token now request user_id.
Proof.
  intros Hauth.
  apply authenticate_cases in Hauth as (token & payload & ? & ? & ? & _).
  by exists token, payload.
Qed.

(** No todo route changes the store for a stranger.  If the update or
    the delete route returns a store other than the one it was given,
    the request presented a valid access token whose subject owns the
    todo addressed; if the create route does, the request presented a
    valid access token and the todo created belongs to its subject.
    The users are never changed by these routes. *)
Theorem store_changes_need_owner db now request todo_id new_id body :
  (forall answer db',
      api.update_todo verify_token as_str as_bool as_datetime
        db now request todo_id body = Some (answer, db') ->
      users db' = users db
      /\ (db' <> db ->
          exists todo,
            prisma.todo_find_unique db todo_id = Some todo
            /\ presents verify_token now request (Todo.userId todo)))
  /\ (forall answer db',
         api.delete_todo verify_token db now request todo_id
         = (answer, db') ->
         users db' = users db
         /\ (db' <> db ->
             exists todo,
               prisma.todo_find_unique db todo_id = Some todo
               /\ presents verify_token now request (Todo.userId todo)))
  /\ (forall answer db',
         api.create_todo verify_token as_str as_bool as_datetime
           db new_id now request body = Some (answer, db') ->
         users db' = users db
         /\ (db' <> db ->
             exists todo,
               answer = Ok todo
               /\ presents verify_token now request (Todo.userId todo))).
Proof.
  split; [|split]; intros answer db'.
  - unfold api.update_todo.
    destruct (dependencies.authenticate verify_token db now request)
      as [user_id|e] eqn:Hauth; [|by intros [= <- <-]].
    apply authenticate_presents in Hauth.
    unfold todos.put_todos.
    destruct (validate_TodoUpdate as_str as_bool as_datetime body)
      as [todo_data|]; [|done].
    unfold todos.update_todo, prisma.todo_update.
    destruct (prisma.todo_find_unique db todo_id) as [todo|] eqn:Hfind;
      [|by intros [= <- <-]].
    destruct (String.eqb_spec (Todo.userId todo) user_id) as [<-|Hown];
      simpl; intros [= <- <-]; [|done].
    split; [done|]. intros _. by exists todo.
  - unfold api.delete_todo.
    destruct (dependencies.authenticate verify_token db now request)
      as [user_id|e] eqn:Hauth; [|by intros [= <- <-]].
    apply authenticate_presents in Hauth.
    unfold todos.delete_todo, prisma.todo_delete.
    destruct (prisma.todo_find_unique db todo_id) as [todo|] eqn:Hfind;
      [|by intros [= <- <-]].
    destruct (String.eqb_spec (Todo.userId todo) user_id) as [<-|Hown];
      simpl; intros [= <- <-]; [|done].
    split; [done|]. intros _. by exists todo.
  - unfold api.create_todo.
    destruct (dependencies.authenticate verify_token db now request)
      as [user_id|e] eqn:Hauth; [|by intros [= <- <-]].
    apply authenticate_presents in Hauth.
    unfold todos.post_todos.
    destruct (validate_TodoCreate as_str as_bool as_datetime body)
      as [todo_data|]; [|done].
    simpl. intros [= <- <-]. split; [done|]. intros _.
    by eexists.
Qed.

End EndToEnd.

(** ** The CORS origins *)

Lemma elem_of_filter_truthy l o :
  o ∈ List.filter (fun x => truthy (Some x)) l <-> o ∈ l /\ o <> "".
Proof.
  rewrite !list_elem_of_In, filter_In, truthy_Some. done.
Qed.

Lemma elem_of_additional_origins s o :
  o ∈ omap (fun origin =>
              if truthy (Some (strip origin)) then Some (strip origin)
              else None)
        (split_on "," s)
  <-> exists piece, piece ∈ split_on "," s /\ o = strip piece /\ o <> "".
Proof.
  rewrite list_elem_of_omap. split.
  - intros (piece & Hin & Hsome). exists piece. split; [done|].
    destruct (truthy (Some (strip piece))) eqn:Ht; [|done].
    injection Hsome as <-. split; [done|]. by apply truthy_Some.
  - intros (piece & Hin & -> & Hne). exists piece. split; [done|].
    apply truthy_Some in Hne. by rewrite Hne.
Qed.

(** The origins that CORS allows are: the configured frontend origin,
    or "http://localhost:3000" when that is empty; and every non-empty
    piece of the comma-separated [ALLOWED_ORIGINS], stripped of
    surrounding white space.  Nothing else is allowed, the empty string
    never is, and the set is never empty, so the fallback at the end of
    the computation is never taken. *)
Theorem allowed_origins_spec FRONTEND_ORIGIN ALLOWED_ORIGINS :
  let frontend :=
    if String.eqb FRONTEND_ORIGIN "" then main.default_origin
    else FRONTEND_ORIGIN in
  (forall origin,
      origin ∈ main.allowed_origins FRONTEND_ORIGIN ALLOWED_ORIGINS
      <-> origin = frontend
          \/ exists listed piece,
              ALLOWED_ORIGINS = Some listed
              /\ piece ∈ split_on "," listed
              /\ origin = strip piece
              /\ origin <> "")
  /\ frontend ∈ main.allowed_origins FRONTEND_ORIGIN ALLOWED_ORIGINS
  /\ "" ∉ main.allowed_origins FRONTEND_ORIGIN ALLOWED_ORIGINS.
Proof.
  intros frontend.
  assert (Hfrontend : frontend <> "").
  { unfold frontend.
    by destruct (String.eqb_spec FRONTEND_ORIGIN ""). }
  assert (Hchar : forall origin,
    origin ∈ main.allowed_origins FRONTEND_ORIGIN ALLOWED_ORIGINS
    <-> origin = frontend
        \/ exists listed piece,
            ALLOWED_ORIGINS = Some listed
            /\ piece ∈ split_on "," listed
            /\ origin = strip piece
            /\ origin <> "").
  { intros origin. unfold main.allowed_origins.
    assert (Hbase :
      (if truthy (Some FRONTEND_ORIGIN) then [FRONTEND_ORIGIN]
       else [main.default_origin]) = [frontend]).
    { unfold frontend. simpl.
      by destruct (String.eqb FRONTEND_ORIGIN ""). }
    rewrite Hbase. clear Hbase.
    match goal with
    | |- context [decide (?s = ∅)] =>
        destruct (decide (s = ∅)) as [Hempty|_];
        [exfalso; assert (Hin : frontend ∈ s)|]
    end.
    - apply elem_of_list_to_set, elem_of_filter_truthy.
      split; [|done].
      destruct (truthy ALLOWED_ORIGINS);
        [apply elem_of_app; left|]; apply list_elem_of_singleton; done.
    - rewrite Hempty in Hin. by apply not_elem_of_empty in Hin.
    - rewrite elem_of_list_to_set, elem_of_filter_truthy.
      destruct ALLOWED_ORIGINS as [listed|].
      + destruct (truthy (Some listed)) eqn:Hlisted; cbn [default].
        * rewrite elem_of_app, list_elem_of_singleton,
            elem_of_additional_origins. split.
          -- intros [[->|(piece & Hin & -> & Hne)] _]; [by left|].
             right. by exists listed, piece.
          -- intros [->|(l' & piece & [= <-] & Hin & -> & Hne)].
             ++ split; [by left|done].
             ++ split; [|done]. right. by exists piece.
        * apply truthy_false_iff in Hlisted as [?|[= ->]]; [done|].
          rewrite list_elem_of_singleton. split.
          -- intros [-> _]. by left.
          -- intros [->|(l' & piece & [= <-] & Hin & -> & Hne)];
               [done|].
             simpl in Hin. apply list_elem_of_singleton in Hin as ->.
             done.
      + cbn [truthy]. rewrite list_elem_of_singleton. split.
        * intros [-> _]. by left.
        * intros [->|(? & ? & ? & _)]; done. }
  split; [exact Hchar|]. split.
  - apply Hchar. by left.
  - intros Hin. apply Hchar in Hin
      as [Hin|(? & ? & _ & _ & _ & Hne)]; congruence.
Qed.

Example allowed_origins_example :
  main.allowed_origins "https://todo.example"
    (Some " https://a.example , ,https://b.example,")
  = {[ "https://todo.example"; "https://a.example"; "https://b.example" ]}.
Proof. apply (bool_decide_unpack _). by vm_compute. Qed.
